(** * copy_lua.py: the PlatformIO pre-build script that stages [lua/sys.lua]
    into [data/sys.lua]

    The script is a straight line of calls into [os.path], [os] and [shutil].
    It is embedded here as a program in a small state-and-exception monad
    over an abstract operating-system interface ([OS]); the interface is then
    instantiated by a POSIX-like filesystem tree ([posix]) in which the
    library calls are written out the way CPython's [os.makedirs],
    [shutil.copyfile], [shutil.copystat] and [shutil.copy2] are.

    Modelling choices, all on the side of the environment:
    - a path is the list of the segments of an absolute, normalised path (the
      form in which PlatformIO hands out [PROJECT_DIR]); [path_str] renders it
      for the console and [posixpath_join_segments] relates [path_join] to
      [posixpath.join] on the rendered strings;
    - the tree has directories and regular files only (no symbolic or hard
      links, no special files), a file carries its bytes, its modification
      time and its permission bits, and permissions are data, not enforced;
    - faults that such a tree cannot produce (permission denied, I/O error,
      disk full, a destination that is the source under another name) exist
      at the level of the abstract interface, whose operations may raise any
      exception. On the tree a call returns wherever the types of the
      entries allow it; what is proved of the tree about the copy is
      therefore proved of the runs that return, and says nothing of when the
      real calls return. *)

From stdpp Require Import gmap strings list.
From Stdlib Require Import ZArith Ascii.

Local Open Scope Z_scope.

(** ** Paths *)

Definition path : Type := list string.

(** [os.path.join(p, name)] for a plain segment [name]. *)
Definition path_join (p : path) (name : string) : path := p ++ [name].

(** The string a path stands for: ["/"] for the root, ["/a/b"] for [a; b]. *)
Definition path_str (p : path) : string :=
  String.append "/" (String.concat "/" p).

(** [os.path.split] on segments: [None] is the root, whose tail is empty. *)
Fixpoint path_split (p : path) : option (path * string) :=
  match p with
  | [] => None
  | s :: p' =>
      match path_split p' with
      | None => Some ([], s)
      | Some (head, tail) => Some (s :: head, tail)
      end
  end.

(** [os.path.basename]. *)
Definition basename (p : path) : string :=
  match path_split p with
  | Some (_, tail) => tail
  | None => ""
  end.

(** [posixpath.join(a, b)] on strings, as CPython writes it for two
    arguments. *)
Fixpoint ends_with_sep (a : string) : bool :=
  match a with
  | EmptyString => false
  | String c EmptyString => Ascii.eqb c "/"%char
  | String _ a' => ends_with_sep a'
  end.

Definition posixpath_join (a b : string) : string :=
  if String.prefix "/" b then b
  else if (String.eqb a "" || ends_with_sep a)%bool then String.append a b
  else String.append a (String.append "/" b).

(** A segment of a normalised path: not empty, and without a separator. *)
Fixpoint no_sep (s : string) : bool :=
  match s with
  | EmptyString => true
  | String c s' => negb (Ascii.eqb c "/"%char) && no_sep s'
  end.

Definition valid_name (s : string) : bool := negb (String.eqb s "") && no_sep s.

(** ** Exceptions, outcomes and the monad *)

Inductive exn : Type :=
| FileNotFoundError
| FileExistsError
| NotADirectoryError
| IsADirectoryError
| SameFileError
| PermissionError
| OSError (errno : Z).

Inductive outcome (A : Type) : Type :=
| Returned (a : A)
| Raised (e : exn).
Arguments Returned {A} a.
Arguments Raised {A} e.

(** A computation over a state [S]: it always hands back the state it
    reached, also when it raises, so that what was done before an exception
    stays done. *)
Definition St (S A : Type) : Type := S -> S * outcome A.

Definition ret {S A} (a : A) : St S A := fun s => (s, Returned a).

Definition bind {S A B} (c : St S A) (k : A -> St S B) : St S B :=
  fun s =>
    match c s with
    | (s', Returned a) => k a s'
    | (s', Raised e) => (s', Raised e)
    end.

Definition raise {S A} (e : exn) : St S A := fun s => (s, Raised e).

Definition gets {S A} (f : S -> A) : St S A := fun s => (s, Returned (f s)).

Definition modify {S} (f : S -> S) : St S unit := fun s => (f s, Returned tt).

(** [try: c  except FileExistsError: pass] *)
Definition except_FileExistsError {S} (c : St S unit) : St S unit :=
  fun s =>
    match c s with
    | (s', Raised FileExistsError) => (s', Returned tt)
    | r => r
    end.

Declare Scope py_scope.
Delimit Scope py_scope with py.
Notation "x <- c1 ;; c2" := (bind c1 (fun x => c2))
  (at level 100, c1 at next level, c2 at level 200, right associativity) : py_scope.
Notation "c1 ;; c2" := (bind c1 (fun _ => c2))
  (at level 100, c2 at level 200, right associativity) : py_scope.

(** ** The operating-system interface the script calls into *)

Class OS (FS : Type) : Type := {
  os_path_exists : path -> FS -> bool;
  os_makedirs : path -> St FS unit;
  shutil_copy2 : path -> path -> St FS unit
}.

(** The world of one run: the filesystem and the console. *)
Record world (FS : Type) : Type := World {
  fs_of : FS;
  console : list string
}.
Arguments World {FS} _ _.
Arguments fs_of {FS} _.
Arguments console {FS} _.

Section Script.
Context {FS : Type} `{os : OS FS}.

Definition print (line : string) : St (world FS) unit :=
  modify (fun w => World (fs_of w) (console w ++ [line])).

(** Run a filesystem operation in the world. *)
Definition sys {A} (c : St FS A) : St (world FS) A :=
  fun w =>
    match c (fs_of w) with
    | (fs', r) => (World fs' (console w), r)
    end.

Definition created_line (data_dir : path) : string :=
  String.append "Created data directory: " (path_str data_dir).
Definition copied_line : string := "Copied sys.lua to data folder".
Definition warning_line (sys_lua_src : path) : string :=
  String.append "WARNING: sys.lua not found at " (path_str sys_lua_src).
Definition completed_line : string := "Pre-build script completed".

Definition data_dir (project_dir : path) : path := path_join project_dir "data".
Definition lua_dir (project_dir : path) : path := path_join project_dir "lua".
Definition sys_lua_src (project_dir : path) : path :=
  path_join (lua_dir project_dir) "sys.lua".
Definition sys_lua_dst (project_dir : path) : path :=
  path_join (data_dir project_dir) "sys.lua".

(** Lines 16-19: create the data directory if it doesn't exist. *)
Definition ensure_data_dir (project_dir : path) : St (world FS) unit :=
  (present <- sys (gets (os_path_exists (data_dir project_dir))) ;;
   if negb present then
     sys (os_makedirs (data_dir project_dir)) ;;
     print (created_line (data_dir project_dir))
   else ret tt)%py.

(** Lines 21-29: copy sys.lua if it exists. *)
Definition copy_sys_lua (project_dir : path) : St (world FS) unit :=
  (present <- sys (gets (os_path_exists (sys_lua_src project_dir))) ;;
   if present then
     sys (shutil_copy2 (sys_lua_src project_dir) (sys_lua_dst project_dir)) ;;
     print copied_line
   else print (warning_line (sys_lua_src project_dir)))%py.

(** The module body, lines 12-31. *)
Definition copy_lua (project_dir : path) : St (world FS) unit :=
  (ensure_data_dir project_dir ;;
   copy_sys_lua project_dir ;;
   print completed_line)%py.

(** One run of the stager on a filesystem, with an empty console. *)
Definition run (project_dir : path) (fs : FS) : world FS * outcome unit :=
  copy_lua project_dir (World fs []).

Definition final (project_dir : path) (fs : FS) : FS := fs_of (fst (run project_dir fs)).
Definition printed (project_dir : path) (fs : FS) : list string :=
  console (fst (run project_dir fs)).
Definition result (project_dir : path) (fs : FS) : outcome unit := snd (run project_dir fs).

(** The two calls of the script that can raise: [os.makedirs], reached
    when [data] does not exist, and [shutil.copy2], reached when the first
    step returned and [lua/sys.lua] exists. *)
Definition raised_by_makedirs (project_dir : path) (fs : FS) (e : exn) : Prop :=
  os_path_exists (data_dir project_dir) fs = false /\
  snd (os_makedirs (data_dir project_dir) fs) = Raised e.

Definition raised_by_copy2 (project_dir : path) (fs : FS) (e : exn) : Prop :=
  exists w1,
    ensure_data_dir project_dir (World fs []) = (w1, Returned tt) /\
    os_path_exists (sys_lua_src project_dir) (fs_of w1) = true /\
    snd (shutil_copy2 (sys_lua_src project_dir) (sys_lua_dst project_dir) (fs_of w1)) = Raised e.
End Script.

(** ** A POSIX-like filesystem *)

(** A tree of directories and regular files. A regular file carries its
    bytes, its modification time and its permission bits; a directory maps
    names to nodes. *)
#[warnings="-register-all"]
Inductive node : Type :=
| File (content : list Byte.byte) (mtime : Z) (mode : Z)
| Dir (entries : gmap string node).

Inductive errno : Type := ENOENT | ENOTDIR.

Definition exn_of_errno (e : errno) : exn :=
  match e with
  | ENOENT => FileNotFoundError
  | ENOTDIR => NotADirectoryError
  end.

(** Path resolution from the root of the tree. *)
Fixpoint lookup_node (n : node) (p : path) : errno + node :=
  match p with
  | [] => inr n
  | s :: p' =>
      match n with
      | File _ _ _ => inl ENOTDIR
      | Dir entries =>
          match entries !! s with
          | None => inl ENOENT
          | Some child => lookup_node child p'
          end
      end
  end.

(** Put node [x] at path [p]; the parent of [p] has to be a directory,
    otherwise nothing changes. *)
Fixpoint set_node (x : node) (p : path) (n : node) : node :=
  match p with
  | [] => x
  | s :: p' =>
      match n with
      | File _ _ _ => n
      | Dir entries =>
          match p' with
          | [] => Dir (<[s := x]> entries)
          | _ :: _ => Dir (alter (set_node x p') s entries)
          end
      end
  end.

(** The filesystem: the tree, the clock that stamps writes, and the umask of
    the running process. *)
Record posix_fs : Type := Posix {
  tree : node;
  clock : Z;
  umask : Z
}.

(** What [os.stat] shows of a path: a directory, or a regular file with its
    bytes and metadata. *)
Inductive entry : Type :=
| IsFile (content : list Byte.byte) (mtime : Z) (mode : Z)
| IsDir.

Definition entry_of (n : node) : entry :=
  match n with
  | File content mtime mode => IsFile content mtime mode
  | Dir _ => IsDir
  end.

Definition lookup_entry (n : node) (p : path) : option entry :=
  match lookup_node n p with
  | inr x => Some (entry_of x)
  | inl _ => None
  end.

Definition stat (fs : posix_fs) (p : path) : option entry :=
  lookup_entry (tree fs) p.

(** A node nothing can be found below: a regular file or an empty
    directory. *)
Definition leaf (x : node) : Prop :=
  match x with
  | File _ _ _ => True
  | Dir entries => entries = ∅
  end.

(** [os.path.exists]: [False] on every [OSError] of [os.stat]. *)
Definition path_exists (p : path) (fs : posix_fs) : bool :=
  match lookup_node (tree fs) p with
  | inr _ => true
  | inl _ => false
  end.

(** [os.path.isdir]. *)
Definition path_isdir (p : path) (fs : posix_fs) : bool :=
  match lookup_node (tree fs) p with
  | inr (Dir _) => true
  | _ => false
  end.

Definition put (p : path) (x : node) (fs : posix_fs) : posix_fs :=
  Posix (set_node x p (tree fs)) (clock fs) (umask fs).

Definition tick (fs : posix_fs) : posix_fs :=
  Posix (tree fs) (clock fs + 1) (umask fs).

(** [os.mkdir(p)]. A directory carries no permission bits here, so the
    umask does not show in what is made, and no parent denies the call. *)
Definition mkdir (p : path) : St posix_fs unit :=
  fun fs =>
    match path_split p with
    | None => (fs, Raised FileExistsError)
    | Some (head, tail) =>
        match lookup_node (tree fs) head with
        | inl e => (fs, Raised (exn_of_errno e))
        | inr (File _ _ _) => (fs, Raised NotADirectoryError)
        | inr (Dir entries) =>
            match entries !! tail with
            | Some _ => (fs, Raised FileExistsError)
            | None => (put p (Dir ∅) fs, Returned tt)
            end
        end
    end.

(** [os.makedirs(name)] with [exist_ok=False], by recursion on the reversed
    segments: the head is made first when it does not exist, a
    [FileExistsError] of that recursive call is swallowed, then the leaf is
    made. The early return for a tail equal to [os.curdir] has no
    counterpart: a normalised path has no such segment. *)
Fixpoint makedirs_rev (rname : list string) : St posix_fs unit :=
  match rname with
  | [] => mkdir []
  | _ :: rhead =>
      (head_exists <- gets (path_exists (rev rhead)) ;;
       (if negb head_exists
        then except_FileExistsError (makedirs_rev rhead)
        else ret tt) ;;
       mkdir (rev rname))%py
  end.

Definition makedirs (name : path) : St posix_fs unit := makedirs_rev (rev name).

(** [os.path.samefile] as [shutil._samefile] uses it: [False] when a
    [stat] fails. *)
Definition samefile (src dst : path) (fs : posix_fs) : bool :=
  bool_decide (src = dst) && path_exists src fs.

(** [open(p, 'rb').read()]. The permission bits of the file are not
    tested: the tree denies no read. *)
Definition open_rb (p : path) : St posix_fs (list Byte.byte) :=
  fun fs =>
    match lookup_node (tree fs) p with
    | inl e => (fs, Raised (exn_of_errno e))
    | inr (Dir _) => (fs, Raised IsADirectoryError)
    | inr (File content _ _) => (fs, Returned content)
    end.

(** The permission bits of a file created by [open(p, 'wb')]. *)
Definition creation_mode (fs : posix_fs) : Z := Z.land 438 (Z.lnot (umask fs)).

(** [open(p, 'wb')]: create the file, or truncate it. The permission bits
    of an existing file are kept and not tested: the tree denies no write. *)
Definition open_wb (p : path) : St posix_fs unit :=
  fun fs =>
    match lookup_node (tree fs) p with
    | inr (Dir _) => (fs, Raised IsADirectoryError)
    | inr (File _ _ mode) => (tick (put p (File [] (clock fs) mode) fs), Returned tt)
    | inl ENOTDIR => (fs, Raised NotADirectoryError)
    | inl ENOENT =>
        match path_split p with
        | None => (fs, Raised FileNotFoundError)
        | Some (head, _) =>
            match lookup_node (tree fs) head with
            | inr (Dir _) =>
                (tick (put p (File [] (clock fs) (creation_mode fs)) fs), Returned tt)
            | _ => (fs, Raised FileNotFoundError)
            end
        end
    end.

(** [f.write(bytes)] on the file opened at [p]. On the tree a write that
    has started goes through: it cannot stop midway. *)
Definition write (p : path) (bytes : list Byte.byte) : St posix_fs unit :=
  fun fs =>
    match lookup_node (tree fs) p with
    | inr (File _ _ mode) => (tick (put p (File bytes (clock fs) mode) fs), Returned tt)
    | inr (Dir _) => (fs, Raised IsADirectoryError)
    | inl e => (fs, Raised (exn_of_errno e))
    end.

(** The handler [shutil.copyfile] puts around [open(dst, 'wb')]. *)
Definition except_IsADirectoryError (dst : path) (c : St posix_fs unit) : St posix_fs unit :=
  fun fs =>
    match c fs with
    | (fs', Raised IsADirectoryError) =>
        if negb (path_exists dst fs') then (fs', Raised FileNotFoundError)
        else (fs', Raised IsADirectoryError)
    | r => r
    end.

(** [shutil.copyfile(src, dst)]. *)
Definition copyfile (src dst : path) : St posix_fs unit :=
  (same <- gets (samefile src dst) ;;
   if same then raise SameFileError
   else
     bytes <- open_rb src ;;
     except_IsADirectoryError dst (open_wb dst ;; write dst bytes))%py.

(** [shutil.copystat(src, dst)]: the modification time and the permission
    bits of [src] are set on [dst]. Directories carry no metadata in this
    model. *)
Definition copystat (src dst : path) : St posix_fs unit :=
  fun fs =>
    match lookup_node (tree fs) src with
    | inl e => (fs, Raised (exn_of_errno e))
    | inr (Dir _) => (fs, Returned tt)
    | inr (File _ mtime mode) =>
        match lookup_node (tree fs) dst with
        | inl e => (fs, Raised (exn_of_errno e))
        | inr (Dir _) => (fs, Returned tt)
        | inr (File content _ _) => (put dst (File content mtime mode) fs, Returned tt)
        end
    end.

(** [shutil.copy2(src, dst)]: into [dst] when it is a directory. *)
Definition copy2 (src dst : path) : St posix_fs unit :=
  (into <- gets (path_isdir dst) ;;
   let dst := if into then path_join dst (basename src) else dst in
   copyfile src dst ;;
   copystat src dst)%py.

Definition is_file (e : option entry) : bool :=
  match e with
  | Some (IsFile _ _ _) => true
  | _ => false
  end.

Definition is_dir (e : option entry) : bool :=
  match e with
  | Some IsDir => true
  | _ => false
  end.

(** [p] is a directory, or resolving it stops at a missing entry: no segment
    on the way is a regular file, so [os.makedirs] can still make [p] a
    directory. *)
Definition can_be_dir (p : path) (fs : posix_fs) : bool :=
  match lookup_node (tree fs) p with
  | inr (Dir _) => true
  | inl ENOENT => true
  | _ => false
  end.

(** The directory [shutil.copy2] writes into, for the script's source and
    destination: [data/sys.lua] when that is a directory, else [data]. *)
Definition copy_parent (project_dir : path) (fs : posix_fs) : path :=
  if path_isdir (sys_lua_dst project_dir) fs then sys_lua_dst project_dir
  else data_dir project_dir.

(** Where [shutil.copy2 src dst] writes. *)
Definition copy_target (src dst : path) (fs : posix_fs) : path :=
  if path_isdir dst fs then path_join dst (basename src) else dst.

#[export] Instance posix : OS posix_fs := {
  os_path_exists := path_exists;
  os_makedirs := makedirs;
  shutil_copy2 := copy2
}.

(** What the first step of the script has done when it returned: every path
    that existed, or that is not a prefix of [data], is as it was; [data]
    was there and nothing happened, or was missing and is a directory now. *)
Definition first_step_ok (project_dir : path) (fs fs1 : posix_fs) (out1 : list string) : Prop :=
  ensure_data_dir project_dir (World fs []) = (World fs1 out1, Returned tt) /\
  (forall q, stat fs q <> None \/ ~ q `prefix_of` data_dir project_dir ->
             stat fs1 q = stat fs q) /\
  ((stat fs (data_dir project_dir) <> None /\ fs1 = fs /\ out1 = []) \/
   (stat fs (data_dir project_dir) = None /\
    stat fs1 (data_dir project_dir) = Some IsDir /\
    out1 = [created_line (data_dir project_dir)])).

(** The filesystem after the script's copy of a source with bytes [c],
    modification time [t] and permission bits [m]. *)
Definition copied_fs (project_dir : path) (fs1 : posix_fs) c t m : posix_fs :=
  Posix (set_node (File c t m) (copy_parent project_dir fs1 ++ ["sys.lua"]) (tree fs1))
        (clock fs1 + 2) (umask fs1).

(** ** Sample project trees *)

Definition bytes_new : list Byte.byte := [Byte.x6e; Byte.x65; Byte.x77].
Definition bytes_old : list Byte.byte := [Byte.x6f; Byte.x6c; Byte.x64].

Definition dir_of (l : list (string * node)) : node := Dir (list_to_map l).

Definition fs_with (n : node) : posix_fs := Posix n 1000 18.

(** [/proj] is the project root in all of them. *)
Definition proj : path := ["proj"].

(** Scenario A: an empty project. *)
Definition fs_empty : posix_fs := fs_with (dir_of [("proj", dir_of [])]).

(** Scenario C: a stale copy in [data/]. *)
Definition fs_stale : posix_fs :=
  fs_with (dir_of [("proj", dir_of
    [("lua", dir_of [("sys.lua", File bytes_new 77 420)]);
     ("data", dir_of [("sys.lua", File bytes_old 5 384)])])]).

(** The source is there, [data/] is not. *)
Definition fs_fresh : posix_fs :=
  fs_with (dir_of [("proj", dir_of
    [("lua", dir_of [("sys.lua", File bytes_new 77 420)])])]).

(** [data] is a regular file. *)
Definition fs_data_is_file : posix_fs :=
  fs_with (dir_of [("proj", dir_of
    [("lua", dir_of [("sys.lua", File bytes_new 77 420)]);
     ("data", File bytes_old 5 384)])]).

(** [data/sys.lua] is a directory. *)
Definition fs_dst_is_dir : posix_fs :=
  fs_with (dir_of [("proj", dir_of
    [("lua", dir_of [("sys.lua", File bytes_new 77 420)]);
     ("data", dir_of [("sys.lua", dir_of [])])])]).

(** [lua/sys.lua] is a directory. *)
Definition fs_src_is_dir : posix_fs :=
  fs_with (dir_of [("proj", dir_of
    [("lua", dir_of [("sys.lua", dir_of [])])])]).

(** The project root is a regular file. *)
Definition fs_root_is_file : posix_fs :=
  fs_with (dir_of [("proj", File bytes_old 5 384)]).

(** An operating system on which the tree cannot be written: every
    [os.makedirs] is denied and every copy finds the disk full (errno 28). *)
Definition read_only_os : OS posix_fs := {|
  os_path_exists := path_exists;
  os_makedirs := fun _ => raise PermissionError;
  shutil_copy2 := fun _ _ => raise (OSError 28)
|}.

(** ** Facts about paths *)

Lemma path_split_snoc (p : path) (s : string) : path_split (p ++ [s]) = Some (p, s).
Proof.
  induction p as [|a p IH]; simpl; [reflexivity|].
  rewrite IH. reflexivity.
Qed.

Lemma basename_join (p : path) (s : string) : basename (path_join p s) = s.
Proof. unfold basename, path_join. rewrite path_split_snoc. reflexivity. Qed.

Lemma snoc_not_prefix (p : path) (s : string) (q : path) :
  q `prefix_of` p -> q <> p ++ [s].
Proof.
  intros [k Hk] ->. apply (f_equal length) in Hk.
  rewrite !length_app in Hk. simpl in Hk. lia.
Qed.

(** *** Segments and [posixpath.join] *)

Lemma ends_with_sep_app (a b : string) :
  b <> EmptyString -> ends_with_sep (String.append a b) = ends_with_sep b.
Proof.
  intros Hb. induction a as [|c a IH]; [reflexivity|].
  change (String.append (String c a) b) with (String c (String.append a b)).
  destruct (String.append a b) as [|c' r] eqn:E.
  - destruct a; simpl in E; [contradiction|discriminate].
  - rewrite <- IH. reflexivity.
Qed.

Lemma no_sep_ends (s : string) : no_sep s = true -> ends_with_sep s = false.
Proof.
  induction s as [|c s IH]; simpl; [reflexivity|].
  intros [Hc Hs]%andb_prop. destruct s; [|auto].
  destruct (Ascii.eqb c "/"); [discriminate|reflexivity].
Qed.

Lemma valid_name_inv (s : string) :
  valid_name s = true -> s <> EmptyString /\ no_sep s = true.
Proof.
  unfold valid_name. intros [H1 H2]%andb_prop. split; [|assumption].
  intros ->. discriminate.
Qed.

Lemma valid_name_not_absolute (s : string) : valid_name s = true -> String.prefix "/" s = false.
Proof.
  intros [Hne Hs]%valid_name_inv. destruct s as [|c s]; [reflexivity|].
  change (String.prefix "/" (String c s))
    with (match ascii_dec "/" c with
          | left _ => String.prefix "" s
          | right _ => false
          end).
  destruct (ascii_dec "/" c) as [<-|]; [|reflexivity].
  simpl in Hs. discriminate.
Qed.

Lemma append_assoc (a b c : string) :
  String.append (String.append a b) c = String.append a (String.append b c).
Proof.
  induction a as [|x a IH]; [reflexivity|].
  change (String x (String.append (String.append a b) c) =
          String x (String.append a (String.append b c))).
  rewrite IH. reflexivity.
Qed.

Lemma concat_snoc (p : path) (x s : string) :
  String.concat "/" ((x :: p) ++ [s]) =
  String.append (String.concat "/" (x :: p)) (String.append "/" s).
Proof.
  revert x. induction p as [|y p IH]; intros x; [reflexivity|].
  change (String.concat "/" ((x :: y :: p) ++ [s]))
    with (String.append x (String.append "/" (String.concat "/" ((y :: p) ++ [s])))).
  rewrite IH.
  change (String.concat "/" (x :: y :: p))
    with (String.append x (String.append "/" (String.concat "/" (y :: p)))).
  rewrite !append_assoc. reflexivity.
Qed.

(** The rendering of a path with segments ends in a separator only for the
    root. *)
Lemma path_str_ends (p : path) :
  Forall (fun x => valid_name x = true) p ->
  ends_with_sep (path_str p) = match p with [] => true | _ => false end.
Proof.
  intros Hp. destruct p as [|x p]; [reflexivity|].
  destruct (exists_last (l := x :: p)) as (q & s & E); [discriminate|].
  rewrite E in Hp. rewrite E. assert (Hq : q ++ [s] <> []) by (destruct q; discriminate).
  destruct (q ++ [s]) as [|x' p'] eqn:E'; [congruence|]. rewrite <- E' in *. clear E' x' p' Hq.
  apply Forall_app in Hp as [_ Hs]. inversion Hs as [|? ? Hv _]; subst.
  apply valid_name_inv in Hv as [Hne Hns].
  assert (Hform : exists pre, path_str (q ++ [s]) = String.append pre s).
  { unfold path_str. destruct q as [|y q].
    - exists "/"%string. reflexivity.
    - rewrite concat_snoc.
      exists (String.append "/" (String.append (String.concat "/" (y :: q)) "/")).
      simpl. rewrite !append_assoc. reflexivity. }
  destruct Hform as [pre ->]. rewrite ends_with_sep_app by assumption.
  apply no_sep_ends. assumption.
Qed.

(** On normalised paths, [os.path.join] with a plain name appends a
    segment: the strings agree. *)
Lemma posixpath_join_segments (p : path) (s : string) :
  Forall (fun x => valid_name x = true) p ->
  valid_name s = true ->
  posixpath_join (path_str p) s = path_str (path_join p s).
Proof.
  intros Hp Hs. unfold posixpath_join.
  rewrite (valid_name_not_absolute s Hs), (path_str_ends p Hp).
  unfold path_str, path_join. destruct p as [|x p]; [reflexivity|].
  simpl String.eqb. cbn [orb]. rewrite concat_snoc.
  rewrite !append_assoc. reflexivity.
Qed.

(** ** Facts about the tree *)

Lemma lookup_node_app (n : node) (p q : path) :
  lookup_node n (p ++ q) =
  match lookup_node n p with
  | inr x => lookup_node x q
  | inl e => inl e
  end.
Proof.
  revert n. induction p as [|s p IH]; intros n; simpl; [reflexivity|].
  destruct n as [c t m|entries]; [reflexivity|].
  destruct (entries !! s); [apply IH|reflexivity].
Qed.

Lemma lookup_entry_below_leaf (x : node) (q : path) :
  leaf x -> q <> [] -> lookup_entry x q = None.
Proof.
  intros Hx Hq. destruct q as [|t q]; [congruence|].
  unfold lookup_entry. destruct x as [c tm md|entries]; simpl; [reflexivity|].
  simpl in Hx. subst entries. rewrite lookup_empty. reflexivity.
Qed.

Lemma lookup_entry_file_inv (n : node) (p : path) c t m :
  lookup_entry n p = Some (IsFile c t m) <-> lookup_node n p = inr (File c t m).
Proof.
  unfold lookup_entry. destruct (lookup_node n p) as [e|[c' t' m'|entries]]; simpl;
    split; intros H; try discriminate; congruence.
Qed.

Lemma lookup_entry_dir_inv (n : node) (p : path) :
  lookup_entry n p = Some IsDir <-> exists entries, lookup_node n p = inr (Dir entries).
Proof.
  unfold lookup_entry. destruct (lookup_node n p) as [e|[c' t' m'|entries]]; simpl;
    split; try (intros [? ?]); try discriminate; eauto.
Qed.

Lemma set_node_below (x : node) (a : string) (h : path) (s : string) es :
  set_node x (a :: h ++ [s]) (Dir es) = Dir (alter (set_node x (h ++ [s])) a es).
Proof. simpl. destruct (h ++ [s]) eqn:E; [destruct h; discriminate|reflexivity]. Qed.

(** Writing at [parent/name] shows at [parent/name] when the parent is a
    directory. *)
Lemma lookup_set_node (x : node) (h : path) (s : string) (n : node) entries :
  lookup_node n h = inr (Dir entries) ->
  lookup_node (set_node x (h ++ [s]) n) (h ++ [s]) = inr x.
Proof.
  revert n. induction h as [|a h IH]; intros n Hn; simpl in Hn.
  - inversion Hn; subst. simpl. rewrite lookup_insert_eq. reflexivity.
  - destruct n as [c t m|es]; [discriminate|].
    destruct (es !! a) as [child|] eqn:Ha; [|discriminate].
    rewrite <- !app_comm_cons, set_node_below. simpl. rewrite lookup_alter_eq, Ha. simpl.
    apply IH, Hn.
Qed.

(** Writing a leaf where no directory was changes no other path. *)
Lemma set_node_frame (x : node) (p : path) (n : node) (q : path) :
  leaf x ->
  (forall entries, lookup_node n p <> inr (Dir entries)) ->
  q <> p ->
  lookup_entry (set_node x p n) q = lookup_entry n q.
Proof.
  intros Hx. revert n q. induction p as [|s p IH]; intros n q Hn Hq.
  - simpl in *. destruct n as [c t m|es]; [|exfalso; eapply Hn; reflexivity].
    rewrite lookup_entry_below_leaf by (assumption || congruence).
    destruct q; [congruence|reflexivity].
  - simpl. destruct n as [c t m|es]; [reflexivity|].
    destruct q as [|t q].
    { destruct p; reflexivity. }
    simpl in Hn.
    destruct p as [|b p'].
    + unfold lookup_entry. simpl.
      destruct (decide (s = t)) as [->|Hst].
      * rewrite lookup_insert_eq.
        assert (q <> []) as Hq' by congruence.
        pose proof (lookup_entry_below_leaf x q Hx Hq') as Hleaf.
        unfold lookup_entry in Hleaf. rewrite Hleaf.
        destruct (es !! t) as [[c t' m|es']|]; [|exfalso; eapply Hn; reflexivity|reflexivity].
        destruct q; [congruence|reflexivity].
      * rewrite lookup_insert_ne by assumption. reflexivity.
    + unfold lookup_entry. simpl.
      destruct (decide (s = t)) as [->|Hst].
      * rewrite lookup_alter_eq.
        destruct (es !! t) as [child|] eqn:Ht; simpl; [|reflexivity].
        apply (IH child q); [exact Hn|congruence].
      * rewrite lookup_alter_ne by assumption. reflexivity.
Qed.

(** Writing twice at the same path is writing the second node. *)
Lemma set_node_set_node (y x : node) (p : path) (n : node) :
  set_node y p (set_node x p n) = set_node y p n.
Proof.
  revert n. induction p as [|s p IH]; intros n; simpl; [reflexivity|].
  destruct n as [c t m|es]; [reflexivity|].
  destruct p as [|b p'].
  - rewrite insert_insert_eq. reflexivity.
  - f_equal. rewrite alter_alter_eq. apply alter_ext. intros child _. apply IH.
Qed.

(** Writing again what is there changes nothing. *)
Lemma set_node_same (x : node) (p : path) (n : node) :
  lookup_node n p = inr x -> set_node x p n = n.
Proof.
  revert n. induction p as [|s p IH]; intros n Hn; simpl in *; [congruence|].
  destruct n as [c t m|es]; [reflexivity|].
  destruct (es !! s) as [child|] eqn:Hs; [|discriminate].
  destruct p as [|b p'].
  - simpl in Hn. inversion Hn; subst. rewrite insert_id by assumption. reflexivity.
  - f_equal. apply alter_id. intros child' Hc. rewrite Hs in Hc.
    inversion Hc; subst. apply IH, Hn.
Qed.

(** ** Facts about the filesystem operations *)

Lemma stat_file (fs : posix_fs) (p : path) c t m :
  stat fs p = Some (IsFile c t m) <-> lookup_node (tree fs) p = inr (File c t m).
Proof. apply lookup_entry_file_inv. Qed.

Lemma stat_dir (fs : posix_fs) (p : path) :
  stat fs p = Some IsDir <-> exists entries, lookup_node (tree fs) p = inr (Dir entries).
Proof. apply lookup_entry_dir_inv. Qed.

Lemma stat_none (fs : posix_fs) (p : path) :
  stat fs p = None <-> exists e, lookup_node (tree fs) p = inl e.
Proof.
  unfold stat, lookup_entry. destruct (lookup_node (tree fs) p) as [e|x]; split.
  - eauto.
  - reflexivity.
  - discriminate.
  - intros [e He]. discriminate.
Qed.

Lemma path_exists_stat (p : path) (fs : posix_fs) :
  path_exists p fs = true <-> stat fs p <> None.
Proof.
  unfold path_exists, stat, lookup_entry.
  destruct (lookup_node (tree fs) p); split; intros H; congruence.
Qed.

Lemma path_exists_false (p : path) (fs : posix_fs) :
  path_exists p fs = false <-> stat fs p = None.
Proof.
  unfold path_exists, stat, lookup_entry.
  destruct (lookup_node (tree fs) p); split; intros H; congruence.
Qed.

Lemma path_isdir_stat (p : path) (fs : posix_fs) :
  path_isdir p fs = true <-> stat fs p = Some IsDir.
Proof.
  unfold path_isdir, stat, lookup_entry.
  destruct (lookup_node (tree fs) p) as [e|[c t m|es]]; simpl; split; intros H; congruence.
Qed.

(** Two filesystems show the same entries when their trees are equal. *)
Lemma stat_tree (fs fs' : posix_fs) (p : path) : tree fs = tree fs' -> stat fs p = stat fs' p.
Proof. unfold stat. intros ->. reflexivity. Qed.

Lemma stat_tick (fs : posix_fs) (p : path) : stat (tick fs) p = stat fs p.
Proof. reflexivity. Qed.

Lemma stat_put_eq (h : path) (s : string) (x : node) (fs : posix_fs) :
  stat fs h = Some IsDir -> stat (put (h ++ [s]) x fs) (h ++ [s]) = Some (entry_of x).
Proof.
  intros [es Hes]%stat_dir. unfold stat, lookup_entry, put. simpl.
  rewrite (lookup_set_node x h s (tree fs) es Hes). reflexivity.
Qed.

Lemma stat_put_frame (p : path) (x : node) (fs : posix_fs) (q : path) :
  leaf x -> stat fs p <> Some IsDir -> q <> p -> stat (put p x fs) q = stat fs q.
Proof.
  intros Hx Hp Hq. unfold stat, put. simpl. apply set_node_frame; try assumption.
  intros es Hes. apply Hp. apply stat_dir. eauto.
Qed.

(** The parent of anything that exists is a directory. *)
Lemma stat_parent (fs : posix_fs) (h : path) (s : string) :
  stat fs (h ++ [s]) <> None -> stat fs h = Some IsDir.
Proof.
  unfold stat, lookup_entry. rewrite lookup_node_app.
  destruct (lookup_node (tree fs) h) as [e|[c t m|es]]; simpl; congruence.
Qed.

(** Below a missing entry and below a regular file there is nothing. *)
Lemma stat_below (fs : posix_fs) (p q : path) :
  stat fs p <> Some IsDir -> q <> [] -> stat fs (p ++ q) = None.
Proof.
  unfold stat, lookup_entry. rewrite lookup_node_app.
  destruct (lookup_node (tree fs) p) as [e|[c t m|es]]; simpl; try congruence.
  destruct q; [congruence|reflexivity].
Qed.

Lemma mkdir_snoc (h : path) (s : string) (fs : posix_fs) :
  mkdir (h ++ [s]) fs =
  match lookup_node (tree fs) h with
  | inl e => (fs, Raised (exn_of_errno e))
  | inr (File _ _ _) => (fs, Raised NotADirectoryError)
  | inr (Dir entries) =>
      match entries !! s with
      | Some _ => (fs, Raised FileExistsError)
      | None => (put (h ++ [s]) (Dir ∅) fs, Returned tt)
      end
  end.
Proof. unfold mkdir. rewrite path_split_snoc. reflexivity. Qed.

(** What resolving [h/s] reports, from what resolving [h] reports. *)
Lemma lookup_node_snoc (n : node) (h : path) (s : string) :
  lookup_node n (h ++ [s]) =
  match lookup_node n h with
  | inl e => inl e
  | inr (File _ _ _) => inl ENOTDIR
  | inr (Dir entries) =>
      match entries !! s with
      | None => inl ENOENT
      | Some child => inr child
      end
  end.
Proof.
  rewrite lookup_node_app. destruct (lookup_node n h) as [e|[c t m|es]]; reflexivity.
Qed.

(** [os.makedirs] succeeds where resolving the name stops at a missing
    entry: it returns with the name a directory, and every path that existed,
    or that is not a prefix of the name, is as it was. *)
Lemma makedirs_rev_ok (rname : list string) (fs : posix_fs) :
  lookup_node (tree fs) (rev rname) = inl ENOENT ->
  exists fs',
    makedirs_rev rname fs = (fs', Returned tt) /\
    stat fs' (rev rname) = Some IsDir /\
    (forall q, stat fs q <> None \/ ~ q `prefix_of` rev rname -> stat fs' q = stat fs q) /\
    clock fs' = clock fs /\ umask fs' = umask fs.
Proof.
  revert fs. induction rname as [|t rhead IH]; intros fs Hmiss; [discriminate|].
  cbn [rev] in *. set (h := rev rhead) in *.
  assert (Hleaf : leaf (Dir ∅)) by reflexivity.
  assert (Hlast : forall fs1 : posix_fs,
             stat fs1 h = Some IsDir -> stat fs1 (h ++ [t]) = None ->
             mkdir (h ++ [t]) fs1 = (put (h ++ [t]) (Dir ∅) fs1, Returned tt)).
  { intros fs1 [es Hes]%stat_dir Hnone. rewrite mkdir_snoc, Hes.
    unfold stat, lookup_entry in Hnone. rewrite lookup_node_snoc, Hes in Hnone.
    destruct (es !! t); [discriminate|reflexivity]. }
  assert (Hnone : stat fs (h ++ [t]) = None).
  { apply stat_none. eauto. }
  rewrite lookup_node_snoc in Hmiss.
  cbn [makedirs_rev]. unfold bind at 1. unfold gets. fold h.
  destruct (lookup_node (tree fs) h) as [e|[c tm md|es]] eqn:Hh; [|discriminate|].
  - (* the head is missing too *)
    injection Hmiss as ->.
    assert (Hex : path_exists h fs = false).
    { unfold path_exists. rewrite Hh. reflexivity. }
    rewrite Hex. cbn [negb].
    destruct (IH fs Hh) as (fs1 & Hrun & Hdir & Hframe & Hclock & Humask).
    fold h in Hdir, Hframe.
    unfold bind, except_FileExistsError. cbn [rev]. fold h. rewrite Hrun.
    assert (Hnone1 : stat fs1 (h ++ [t]) = None).
    { rewrite Hframe; [assumption|]. right. intros Hpre.
      eapply snoc_not_prefix; [exact Hpre|reflexivity]. }
    rewrite (Hlast fs1 Hdir Hnone1).
    eexists. split; [reflexivity|]. split; [|split].
    + apply stat_put_eq, Hdir.
    + intros q Hq. rewrite stat_put_frame; try assumption.
      * apply Hframe. destruct Hq as [Hq|Hq]; [left; assumption|].
        right. intros Hpre. apply Hq. etrans; [exact Hpre|]. by apply prefix_app_r.
      * congruence.
      * intros ->. destruct Hq as [Hq|Hq]; [congruence|]. apply Hq. reflexivity.
    + simpl. auto.
  - (* the head is a directory *)
    assert (Hex : path_exists h fs = true).
    { unfold path_exists. rewrite Hh. reflexivity. }
    rewrite Hex. cbn [negb]. unfold bind, ret. cbn [rev]. fold h.
    assert (Hdir : stat fs h = Some IsDir) by (apply stat_dir; eauto).
    rewrite (Hlast fs Hdir Hnone).
    eexists. split; [reflexivity|]. split; [|split].
    + apply stat_put_eq, Hdir.
    + intros q Hq. apply stat_put_frame; try assumption.
      * congruence.
      * intros ->. destruct Hq as [Hq|Hq]; [congruence|]. apply Hq. reflexivity.
    + simpl. auto.
Qed.

(** [os.makedirs] raises [NotADirectoryError], and has done nothing, where
    resolving the name runs into a regular file. *)
Lemma makedirs_rev_notdir (rname : list string) (fs : posix_fs) :
  lookup_node (tree fs) (rev rname) = inl ENOTDIR ->
  makedirs_rev rname fs = (fs, Raised NotADirectoryError).
Proof.
  revert fs. induction rname as [|t rhead IH]; intros fs Hbad; [discriminate|].
  cbn [rev] in *. set (h := rev rhead) in *.
  rewrite lookup_node_snoc in Hbad.
  cbn [makedirs_rev]. unfold bind at 1. unfold gets. fold h.
  destruct (lookup_node (tree fs) h) as [e|[c tm md|es]] eqn:Hh.
  - injection Hbad as ->.
    assert (Hex : path_exists h fs = false).
    { unfold path_exists. rewrite Hh. reflexivity. }
    rewrite Hex. cbn [negb]. unfold bind, except_FileExistsError.
    rewrite (IH fs Hh). reflexivity.
  - assert (Hex : path_exists h fs = true).
    { unfold path_exists. rewrite Hh. reflexivity. }
    rewrite Hex. cbn [negb]. unfold bind, ret. cbn [rev]. fold h.
    rewrite mkdir_snoc, Hh. reflexivity.
  - destruct (es !! t); discriminate.
Qed.

(** *** [shutil.copy2] *)

Lemma copy2_unfold (src dst : path) (fs : posix_fs) :
  copy2 src dst fs =
  (copyfile src (copy_target src dst fs) ;; copystat src (copy_target src dst fs))%py fs.
Proof. reflexivity. Qed.

Lemma samefile_ne (src dst : path) (fs : posix_fs) : src <> dst -> samefile src dst fs = false.
Proof. intros H. unfold samefile. rewrite bool_decide_eq_false_2 by assumption. reflexivity. Qed.

Lemma put_put (p : path) (y x : node) (fs : posix_fs) : put p y (put p x fs) = put p y fs.
Proof. unfold put. simpl. rewrite set_node_set_node. reflexivity. Qed.

(** Copying a directory raises [IsADirectoryError] and writes nothing. *)
Lemma copy2_src_dir (src dst : path) (fs : posix_fs) :
  stat fs src = Some IsDir ->
  src <> copy_target src dst fs ->
  copy2 src dst fs = (fs, Raised IsADirectoryError).
Proof.
  intros [es Hes]%stat_dir Hne. rewrite copy2_unfold.
  unfold bind, copyfile, bind, gets. rewrite (samefile_ne _ _ _ Hne).
  unfold open_rb. rewrite Hes. reflexivity.
Qed.

(** Copying a regular file onto [h/s], where [h] is a directory and [h/s] is
    a regular file or missing, leaves at [h/s] a file with the bytes, the
    modification time and the permission bits of the source. *)
Lemma copy2_file_ok (src dst h : path) (s : string) (fs : posix_fs) c t m :
  stat fs src = Some (IsFile c t m) ->
  copy_target src dst fs = h ++ [s] ->
  src <> h ++ [s] ->
  stat fs h = Some IsDir ->
  stat fs (h ++ [s]) <> Some IsDir ->
  copy2 src dst fs = (Posix (set_node (File c t m) (h ++ [s]) (tree fs)) (clock fs + 2) (umask fs),
                      Returned tt).
Proof.
  intros Hsrc Htgt Hne Hh Hold. rewrite copy2_unfold, Htgt.
  set (tgt := h ++ [s]) in *.
  pose proof Hsrc as Hsrc'. apply stat_file in Hsrc'.
  pose proof Hh as Hh'. apply stat_dir in Hh' as [es Hes].
  (* the state after open(dst, 'wb') *)
  assert (Hopen : exists mode0,
            open_wb tgt fs = (tick (put tgt (File [] (clock fs) mode0) fs), Returned tt)).
  { unfold open_wb. destruct (lookup_node (tree fs) tgt) as [[|]|[c' t' m'|es']] eqn:Htg.
    - unfold tgt. rewrite path_split_snoc, Hes. eauto.
    - unfold tgt in Htg. rewrite lookup_node_snoc, Hes in Htg.
      destruct (es !! s); discriminate.
    - eauto.
    - exfalso. apply Hold. apply stat_dir. eauto. }
  destruct Hopen as [mode0 Hopen].
  set (fs1 := tick (put tgt (File [] (clock fs) mode0) fs)) in *.
  assert (Htgt1 : lookup_node (tree fs1) tgt = inr (File [] (clock fs) mode0)).
  { unfold fs1, tgt. simpl. eapply lookup_set_node, Hes. }
  assert (Hwrite : write tgt c fs1 = (tick (put tgt (File c (clock fs1) mode0) fs1), Returned tt)).
  { unfold write. rewrite Htgt1. reflexivity. }
  set (fs2 := tick (put tgt (File c (clock fs1) mode0) fs1)) in *.
  assert (Hh1 : stat fs1 h = Some IsDir).
  { unfold fs1. rewrite stat_tick, stat_put_frame; try assumption; [exact I|].
    intros E. eapply snoc_not_prefix; [|exact E]. reflexivity. }
  assert (Htgt2 : lookup_node (tree fs2) tgt = inr (File c (clock fs1) mode0)).
  { apply stat_dir in Hh1 as [es1 Hes1]. unfold fs2, tgt. simpl.
    eapply lookup_set_node, Hes1. }
  assert (Hsrc2 : lookup_node (tree fs2) src = inr (File c t m)).
  { apply stat_file. unfold fs2. rewrite stat_tick, stat_put_frame.
    - unfold fs1. rewrite stat_tick, stat_put_frame; try assumption. exact I.
    - exact I.
    - intros [es1 E]%stat_dir. rewrite Htgt1 in E. discriminate.
    - assumption. }
  unfold bind at 1. unfold copyfile, bind at 1. unfold gets.
  rewrite (samefile_ne _ _ _ Hne).
  unfold bind at 1. unfold open_rb. rewrite Hsrc'.
  unfold except_IsADirectoryError, bind at 1. rewrite Hopen, Hwrite.
  unfold copystat. rewrite Hsrc2, Htgt2.
  f_equal. unfold fs2, fs1, tick, put. simpl. rewrite !set_node_set_node.
  f_equal. lia.
Qed.

(** The copy raises, and writes nothing, where the target is a directory, or
    is not inside a directory. *)
Lemma copy2_file_fault (src dst h : path) (s : string) (fs : posix_fs) c t m :
  stat fs src = Some (IsFile c t m) ->
  copy_target src dst fs = h ++ [s] ->
  src <> h ++ [s] ->
  stat fs (h ++ [s]) = Some IsDir \/ stat fs h <> Some IsDir ->
  copy2 src dst fs =
  (fs, Raised (match lookup_node (tree fs) (h ++ [s]) with
               | inr _ => IsADirectoryError
               | inl ENOTDIR => NotADirectoryError
               | inl ENOENT => FileNotFoundError
               end)).
Proof.
  intros Hsrc Htgt Hne Hbad. rewrite copy2_unfold, Htgt.
  set (tgt := h ++ [s]) in *.
  apply stat_file in Hsrc.
  unfold bind at 1. unfold copyfile, bind at 1. unfold gets.
  rewrite (samefile_ne _ _ _ Hne).
  unfold bind at 1. unfold open_rb. rewrite Hsrc.
  unfold except_IsADirectoryError, bind at 1. unfold open_wb.
  destruct Hbad as [Hdir|Hnodir].
  - pose proof Hdir as Hdir'. apply stat_dir in Hdir as [es Hes]. rewrite Hes.
    assert (Hex : path_exists tgt fs = true) by (apply path_exists_stat; congruence).
    rewrite Hex. reflexivity.
  - destruct (lookup_node (tree fs) tgt) as [[|]|x] eqn:Htg.
    + unfold tgt. rewrite path_split_snoc.
      destruct (lookup_node (tree fs) h) as [e|[c' t' m'|es]] eqn:Hh; try reflexivity.
      exfalso. apply Hnodir. apply stat_dir. eauto.
    + reflexivity.
    + exfalso. apply Hnodir. apply (stat_parent fs h s).
      unfold stat, lookup_entry. fold tgt. rewrite Htg. discriminate.
Qed.

(** ** The script, step by step, over any operating system *)

Section ScriptFacts.
Context {FS : Type} `{os : OS FS}.
Implicit Types (project_dir : path) (fs : FS) (out : list string).

Lemma ensure_data_dir_eq project_dir fs out :
  ensure_data_dir project_dir (World fs out) =
  if os_path_exists (data_dir project_dir) fs then (World fs out, Returned tt)
  else
    match os_makedirs (data_dir project_dir) fs with
    | (fs', Returned _) =>
        (World fs' (out ++ [created_line (data_dir project_dir)]), Returned tt)
    | (fs', Raised e) => (World fs' out, Raised e)
    end.
Proof.
  unfold ensure_data_dir, bind, sys, gets, print, modify, ret. simpl.
  destruct (os_path_exists (data_dir project_dir) fs); simpl; [reflexivity|].
  destruct (os_makedirs (data_dir project_dir) fs) as [fs' [[]|e]]; reflexivity.
Qed.

Lemma copy_sys_lua_eq project_dir fs out :
  copy_sys_lua project_dir (World fs out) =
  if os_path_exists (sys_lua_src project_dir) fs then
    match shutil_copy2 (sys_lua_src project_dir) (sys_lua_dst project_dir) fs with
    | (fs', Returned _) => (World fs' (out ++ [copied_line]), Returned tt)
    | (fs', Raised e) => (World fs' out, Raised e)
    end
  else (World fs (out ++ [warning_line (sys_lua_src project_dir)]), Returned tt).
Proof.
  unfold copy_sys_lua, bind, sys, gets, print, modify. simpl.
  destruct (os_path_exists (sys_lua_src project_dir) fs); simpl; [|reflexivity].
  destruct (shutil_copy2 _ _ fs) as [fs' [[]|e]]; reflexivity.
Qed.

(** A run is the first step, then the second from where the first
    stopped, then the completion line. *)
Lemma run_eq project_dir fs :
  run project_dir fs =
  match ensure_data_dir project_dir (World fs []) with
  | (w1, Raised e) => (w1, Raised e)
  | (w1, Returned _) =>
      match copy_sys_lua project_dir w1 with
      | (w2, Raised e) => (w2, Raised e)
      | (w2, Returned _) => (World (fs_of w2) (console w2 ++ [completed_line]), Returned tt)
      end
  end.
Proof.
  unfold run, copy_lua, bind.
  destruct (ensure_data_dir project_dir (World fs [])) as [w1 [[]|e]]; [|reflexivity].
  destruct (copy_sys_lua project_dir w1) as [w2 [[]|e]]; reflexivity.
Qed.

(** Neither step prints the completion line. *)
Lemma ensure_data_dir_console project_dir fs out w r :
  ensure_data_dir project_dir (World fs out) = (w, r) ->
  console w = out \/ console w = out ++ [created_line (data_dir project_dir)].
Proof.
  rewrite ensure_data_dir_eq.
  destruct (os_path_exists _ fs).
  - intros [= <- <-]. left. reflexivity.
  - destruct (os_makedirs _ fs) as [fs' [[]|e]]; intros [= <- <-]; simpl; auto.
Qed.

Lemma copy_sys_lua_console project_dir fs out w r :
  copy_sys_lua project_dir (World fs out) = (w, r) ->
  console w = out \/ console w = out ++ [copied_line] \/
  console w = out ++ [warning_line (sys_lua_src project_dir)].
Proof.
  rewrite copy_sys_lua_eq.
  destruct (os_path_exists _ fs).
  - destruct (shutil_copy2 _ _ fs) as [fs' [[]|e]]; intros [= <- <-]; simpl; auto.
  - intros [= <- <-]. simpl. auto.
Qed.

Lemma created_line_not_completed p : created_line p <> completed_line.
Proof. unfold created_line, completed_line. simpl. discriminate. Qed.

Lemma copied_line_not_completed : copied_line <> completed_line.
Proof. discriminate. Qed.

Lemma warning_line_not_completed p : warning_line p <> completed_line.
Proof. unfold warning_line, completed_line. simpl. discriminate. Qed.

Lemma created_line_not_copied p : created_line p <> copied_line.
Proof. unfold created_line, copied_line. simpl. discriminate. Qed.

Lemma created_line_not_warning p q : created_line p <> warning_line q.
Proof. unfold created_line, warning_line. simpl. discriminate. Qed.

Lemma warning_line_not_copied p : warning_line p <> copied_line.
Proof. unfold warning_line, copied_line. simpl. discriminate. Qed.

(** A run that raises has not printed the completion line. *)
Lemma raised_not_completed project_dir fs e :
  result project_dir fs = Raised e -> ~ In completed_line (printed project_dir fs).
Proof.
  unfold result, printed. rewrite run_eq.
  destruct (ensure_data_dir project_dir (World fs [])) as [[fs1 out1] [[]|e1]] eqn:E1.
  - destruct (copy_sys_lua project_dir (World fs1 out1)) as [w2 [[]|e2]] eqn:E2;
      simpl; [discriminate|].
    intros _ Hin.
    apply ensure_data_dir_console in E1. apply copy_sys_lua_console in E2.
    simpl in E1.
    pose proof (created_line_not_completed (data_dir project_dir)).
    pose proof copied_line_not_completed.
    pose proof (warning_line_not_completed (sys_lua_src project_dir)).
    destruct E1 as [-> | ->], E2 as [E2 | [E2 | E2]]; rewrite E2 in Hin; simpl in Hin;
      intuition congruence.
  - simpl. intros _ Hin. apply ensure_data_dir_console in E1. simpl in E1.
    pose proof (created_line_not_completed (data_dir project_dir)).
    destruct E1 as [E1 | E1]; rewrite E1 in Hin; simpl in Hin; intuition congruence.
Qed.
End ScriptFacts.

(** ** Faults and the completion line, over any operating system *)

Section ControlFlow.
Context {FS : Type} `{os : OS FS}.
Implicit Types (project_dir : path) (fs : FS).

(** C6. The script has no exception handler. A run raises [e] exactly when
    [os.makedirs] raised [e] (the data directory was missing) or
    [shutil.copy2] raised [e] (the source existed): whatever those two
    calls raise comes out of the run unchanged. A run that raises has not
    printed the completion line. The one condition the script deals with
    itself is the missing source: it prints the warning and returns. *)
Theorem faults_propagate project_dir fs e :
  (result project_dir fs = Raised e <->
   raised_by_makedirs project_dir fs e \/ raised_by_copy2 project_dir fs e) /\
  (result project_dir fs = Raised e -> ~ In completed_line (printed project_dir fs)) /\
  (forall w1,
     ensure_data_dir project_dir (World fs []) = (w1, Returned tt) ->
     os_path_exists (sys_lua_src project_dir) (fs_of w1) = false ->
     result project_dir fs = Returned tt /\
     In (warning_line (sys_lua_src project_dir)) (printed project_dir fs)).
Proof.
  split; [|split].
  - unfold result, raised_by_makedirs, raised_by_copy2. rewrite run_eq.
    rewrite ensure_data_dir_eq.
    destruct (os_path_exists (data_dir project_dir) fs) eqn:Hdata.
    + rewrite copy_sys_lua_eq.
      destruct (os_path_exists (sys_lua_src project_dir) fs) eqn:Hsrc.
      * destruct (shutil_copy2 _ _ fs) as [fs2 [[]|e2]] eqn:Hcopy; simpl.
        -- split; [discriminate|].
           intros [[? _]|(w1 & [= <-] & _ & Hr)]; [discriminate|].
           simpl in Hr. rewrite Hcopy in Hr. discriminate.
        -- split.
           ++ intros [= ->]. right. eexists. split; [reflexivity|]. simpl.
              rewrite Hcopy. auto.
           ++ intros [[? _]|(w1 & [= <-] & _ & Hr)]; [discriminate|].
              simpl in Hr. rewrite Hcopy in Hr. simpl in Hr. congruence.
      * simpl. split; [discriminate|].
        intros [[? _]|(w1 & [= <-] & Hex & _)]; [discriminate|].
        simpl in Hex. congruence.
    + destruct (os_makedirs (data_dir project_dir) fs) as [fs1 [[]|e1]] eqn:Hmk.
      * rewrite copy_sys_lua_eq.
        destruct (os_path_exists (sys_lua_src project_dir) fs1) eqn:Hsrc.
        -- destruct (shutil_copy2 _ _ fs1) as [fs2 [[]|e2]] eqn:Hcopy; simpl.
           ++ split; [discriminate|].
              intros [[_ ?]|(w1 & [= <-] & _ & Hr)]; [discriminate|].
              simpl in Hr. rewrite Hcopy in Hr. discriminate.
           ++ split.
              ** intros [= ->]. right. eexists. split; [reflexivity|]. simpl.
                 rewrite Hcopy. auto.
              ** intros [[_ ?]|(w1 & [= <-] & _ & Hr)]; [discriminate|].
                 simpl in Hr. rewrite Hcopy in Hr. simpl in Hr. congruence.
        -- simpl. split; [discriminate|].
           intros [[_ ?]|(w1 & [= <-] & Hex & _)]; [discriminate|].
           simpl in Hex. congruence.
      * simpl. split.
        -- intros [= ->]. left. auto.
        -- intros [[_ Hr]|(w1 & ? & _)]; [congruence|discriminate].
  - apply raised_not_completed.
  - intros [fs1 out1] Hfirst Hsrc. unfold result, printed. rewrite run_eq, Hfirst.
    rewrite copy_sys_lua_eq. simpl in Hsrc. rewrite Hsrc. simpl. split; [reflexivity|].
    rewrite !in_app_iff. simpl. auto.
Qed.

(** C7. A run that returns has printed the completion line, and printed it
    last, after the copy as well as after the warning. *)
Theorem completed_last project_dir fs :
  result project_dir fs = Returned tt ->
  last (printed project_dir fs) = Some completed_line /\
  (In copied_line (printed project_dir fs) \/
   In (warning_line (sys_lua_src project_dir)) (printed project_dir fs)).
Proof.
  unfold result, printed. rewrite run_eq.
  destruct (ensure_data_dir project_dir (World fs [])) as [[fs1 out1] [[]|e1]];
    [|discriminate].
  rewrite copy_sys_lua_eq.
  destruct (os_path_exists (sys_lua_src project_dir) fs1).
  - destruct (shutil_copy2 _ _ fs1) as [fs2 [[]|e2]]; [|discriminate].
    simpl. intros _. split; [apply last_snoc|].
    left. rewrite !in_app_iff. simpl. auto.
  - simpl. intros _. split; [apply last_snoc|].
    right. rewrite !in_app_iff. simpl. auto.
Qed.
End ControlFlow.

(** ** The script on the POSIX tree *)

Section OnPosix.
Implicit Types (project_dir : path) (fs : posix_fs).

Lemma src_not_dst project_dir : sys_lua_src project_dir <> sys_lua_dst project_dir.
Proof.
  unfold sys_lua_src, sys_lua_dst, lua_dir, data_dir, path_join.
  intros E. apply app_inj_tail in E as [E _]. apply app_inj_tail in E as [_ E].
  discriminate.
Qed.

Lemma src_not_below_dst project_dir (s : string) :
  sys_lua_src project_dir <> sys_lua_dst project_dir ++ [s].
Proof.
  unfold sys_lua_src, sys_lua_dst, lua_dir, data_dir, path_join.
  intros E. apply (f_equal length) in E. rewrite !length_app in E. simpl in E. lia.
Qed.

(** Nothing at or below [lua] is a prefix of [data]. *)
Lemma lua_not_prefix_data project_dir (k : path) :
  ~ (lua_dir project_dir ++ k) `prefix_of` data_dir project_dir.
Proof.
  unfold lua_dir, data_dir, path_join. rewrite <- app_assoc.
  intros Hpre. apply prefix_app_inv in Hpre. simpl in Hpre.
  destruct Hpre as [r Hr]. simpl in Hr. injection Hr as Hr _. discriminate.
Qed.

(** Nothing at or below [lua] is at or below [data]. *)
Lemma lua_not_data project_dir (k k' : path) :
  lua_dir project_dir ++ k <> data_dir project_dir ++ k'.
Proof.
  unfold lua_dir, data_dir, path_join. rewrite <- !app_assoc.
  intros E. apply app_inv_head in E. simpl in E. discriminate.
Qed.

Lemma below_data_not_prefix project_dir (s : string) (k : path) :
  ~ (data_dir project_dir ++ s :: k) `prefix_of` data_dir project_dir.
Proof.
  intros [r Hr]. apply (f_equal length) in Hr. rewrite !length_app in Hr.
  simpl in Hr. lia.
Qed.

Lemma copy_target_parent project_dir fs :
  copy_target (sys_lua_src project_dir) (sys_lua_dst project_dir) fs =
  copy_parent project_dir fs ++ ["sys.lua"].
Proof.
  unfold copy_target, copy_parent.
  destruct (path_isdir (sys_lua_dst project_dir) fs).
  - unfold sys_lua_src. rewrite basename_join. reflexivity.
  - reflexivity.
Qed.

Lemma src_not_target project_dir fs :
  sys_lua_src project_dir <> copy_parent project_dir fs ++ ["sys.lua"].
Proof.
  unfold copy_parent. destruct (path_isdir _ fs).
  - apply src_not_below_dst.
  - apply src_not_dst.
Qed.

(** The project root can be a directory exactly when [data] resolves to
    something or stops at a missing entry. *)
Lemma can_be_dir_data project_dir fs :
  can_be_dir project_dir fs = true <->
  lookup_node (tree fs) (data_dir project_dir) <> inl ENOTDIR.
Proof.
  unfold can_be_dir, data_dir, path_join. rewrite lookup_node_snoc.
  destruct (lookup_node (tree fs) project_dir) as [[|]|[c t m|es]]; split;
    try congruence; try (intros _; discriminate).
  destruct (es !! "data"); discriminate.
Qed.

Lemma first_step project_dir fs :
  (can_be_dir project_dir fs = false /\
   ensure_data_dir project_dir (World fs []) = (World fs [], Raised NotADirectoryError)) \/
  (can_be_dir project_dir fs = true /\
   exists fs1 out1, first_step_ok project_dir fs fs1 out1).
Proof.
  unfold first_step_ok. rewrite ensure_data_dir_eq. simpl.
  destruct (can_be_dir project_dir fs) eqn:Hroot.
  - right. split; [reflexivity|].
    apply can_be_dir_data in Hroot.
    destruct (path_exists (data_dir project_dir) fs) eqn:Hex.
    + exists fs, []. split; [reflexivity|]. split; [reflexivity|].
      left. apply path_exists_stat in Hex. auto.
    + assert (Hmiss : lookup_node (tree fs) (data_dir project_dir) = inl ENOENT).
      { unfold path_exists in Hex.
        destruct (lookup_node (tree fs) (data_dir project_dir)) as [[|]|]; congruence. }
      unfold makedirs.
      rewrite <- (rev_involutive (data_dir project_dir)) in Hmiss.
      destruct (makedirs_rev_ok _ _ Hmiss) as (fs1 & Hrun & Hdir & Hframe & _).
      rewrite rev_involutive in Hdir, Hframe.
      rewrite Hrun. exists fs1, [created_line (data_dir project_dir)].
      split; [reflexivity|]. split; [exact Hframe|].
      right. apply path_exists_false in Hex. auto.
  - left. split; [reflexivity|].
    assert (Hbad : lookup_node (tree fs) (data_dir project_dir) = inl ENOTDIR).
    { destruct (lookup_node (tree fs) (data_dir project_dir)) as [[|]|] eqn:E; try reflexivity;
        exfalso; (assert (can_be_dir project_dir fs = true) as H;
                  [apply can_be_dir_data; congruence|congruence]). }
    unfold path_exists. rewrite Hbad. unfold makedirs.
    rewrite <- (rev_involutive (data_dir project_dir)) in Hbad.
    rewrite (makedirs_rev_notdir _ _ Hbad). reflexivity.
Qed.

Lemma first_step_data project_dir fs fs1 out1 :
  first_step_ok project_dir fs fs1 out1 -> stat fs1 (data_dir project_dir) <> None.
Proof.
  intros (_ & _ & [(H & -> & _)|(_ & H & _)]); congruence.
Qed.

(** The second step, from the filesystem it starts on. *)
Lemma second_step_missing project_dir fs1 out1 :
  stat fs1 (sys_lua_src project_dir) = None ->
  copy_sys_lua project_dir (World fs1 out1) =
  (World fs1 (out1 ++ [warning_line (sys_lua_src project_dir)]), Returned tt).
Proof.
  intros Hsrc. rewrite copy_sys_lua_eq. simpl.
  apply path_exists_false in Hsrc. rewrite Hsrc. reflexivity.
Qed.

Lemma second_step_dir project_dir fs1 out1 :
  stat fs1 (sys_lua_src project_dir) = Some IsDir ->
  copy_sys_lua project_dir (World fs1 out1) = (World fs1 out1, Raised IsADirectoryError).
Proof.
  intros Hsrc. rewrite copy_sys_lua_eq. simpl.
  assert (Hex : path_exists (sys_lua_src project_dir) fs1 = true)
    by (apply path_exists_stat; congruence).
  rewrite Hex, copy2_src_dir; [reflexivity|assumption|].
  rewrite copy_target_parent. apply src_not_target.
Qed.

Lemma second_step_copied project_dir fs1 out1 c t m :
  stat fs1 (sys_lua_src project_dir) = Some (IsFile c t m) ->
  stat fs1 (copy_parent project_dir fs1) = Some IsDir ->
  stat fs1 (copy_parent project_dir fs1 ++ ["sys.lua"]) <> Some IsDir ->
  copy_sys_lua project_dir (World fs1 out1) =
  (World (Posix (set_node (File c t m) (copy_parent project_dir fs1 ++ ["sys.lua"]) (tree fs1))
                (clock fs1 + 2) (umask fs1))
         (out1 ++ [copied_line]),
   Returned tt).
Proof.
  intros Hsrc Hpar Htgt. rewrite copy_sys_lua_eq. simpl.
  assert (Hex : path_exists (sys_lua_src project_dir) fs1 = true)
    by (apply path_exists_stat; congruence).
  rewrite Hex.
  rewrite (copy2_file_ok _ _ (copy_parent project_dir fs1) "sys.lua" fs1 c t m);
    try assumption; [reflexivity|apply copy_target_parent|apply src_not_target].
Qed.

Lemma second_step_fault project_dir fs1 out1 c t m :
  stat fs1 (sys_lua_src project_dir) = Some (IsFile c t m) ->
  stat fs1 (copy_parent project_dir fs1 ++ ["sys.lua"]) = Some IsDir \/
  stat fs1 (copy_parent project_dir fs1) <> Some IsDir ->
  copy_sys_lua project_dir (World fs1 out1) =
  (World fs1 out1,
   Raised (match lookup_node (tree fs1) (copy_parent project_dir fs1 ++ ["sys.lua"]) with
           | inr _ => IsADirectoryError
           | inl ENOTDIR => NotADirectoryError
           | inl ENOENT => FileNotFoundError
           end)).
Proof.
  intros Hsrc Hbad. rewrite copy_sys_lua_eq. simpl.
  assert (Hex : path_exists (sys_lua_src project_dir) fs1 = true)
    by (apply path_exists_stat; congruence).
  rewrite Hex.
  rewrite (copy2_file_fault _ _ (copy_parent project_dir fs1) "sys.lua" fs1 c t m);
    try assumption; [reflexivity|apply copy_target_parent|apply src_not_target].
Qed.
End OnPosix.

Section OnPosixRuns.
Implicit Types (project_dir : path) (fs : posix_fs).

Lemma is_dir_iff (e : option entry) : is_dir e = true <-> e = Some IsDir.
Proof. destruct e as [[c t m|]|]; simpl; split; congruence. Qed.

Lemma is_dir_false (e : option entry) : is_dir e = false <-> e <> Some IsDir.
Proof. destruct e as [[c t m|]|]; simpl; split; congruence. Qed.

(** The second step leaves the filesystem alone, or has copied. *)
Lemma second_step_cases project_dir fs1 out1 :
  (exists out2 r,
     copy_sys_lua project_dir (World fs1 out1) = (World fs1 out2, r) /\
     (r = Returned tt -> stat fs1 (sys_lua_src project_dir) = None)) \/
  (exists c t m,
     stat fs1 (sys_lua_src project_dir) = Some (IsFile c t m) /\
     stat fs1 (copy_parent project_dir fs1) = Some IsDir /\
     stat fs1 (copy_parent project_dir fs1 ++ ["sys.lua"]) <> Some IsDir /\
     copy_sys_lua project_dir (World fs1 out1) =
     (World (copied_fs project_dir fs1 c t m) (out1 ++ [copied_line]), Returned tt)).
Proof.
  destruct (stat fs1 (sys_lua_src project_dir)) as [[c t m|]|] eqn:Hsrc.
  - destruct (is_dir (stat fs1 (copy_parent project_dir fs1))) eqn:Hpar;
      [apply is_dir_iff in Hpar|apply is_dir_false in Hpar].
    + destruct (is_dir (stat fs1 (copy_parent project_dir fs1 ++ ["sys.lua"]))) eqn:Htgt;
        [apply is_dir_iff in Htgt|apply is_dir_false in Htgt].
      * left. eexists _, _. split.
        -- apply (second_step_fault _ _ _ c t m); auto.
        -- discriminate.
      * right. exists c, t, m. repeat split; try assumption.
        apply second_step_copied; assumption.
    + left. eexists _, _. split.
      * apply (second_step_fault _ _ _ c t m); auto.
      * discriminate.
  - left. eexists _, _. split; [apply second_step_dir; assumption|discriminate].
  - left. eexists _, _. split; [apply second_step_missing; assumption|reflexivity].
Qed.

Lemma stat_copied_fs_target project_dir fs1 c t m :
  stat fs1 (copy_parent project_dir fs1) = Some IsDir ->
  stat (copied_fs project_dir fs1 c t m) (copy_parent project_dir fs1 ++ ["sys.lua"]) =
  Some (IsFile c t m).
Proof.
  intros [es Hes]%stat_dir. unfold stat, lookup_entry, copied_fs. simpl.
  rewrite (lookup_set_node _ _ _ _ es Hes). reflexivity.
Qed.

Lemma stat_copied_fs_frame project_dir fs1 c t m q :
  stat fs1 (copy_parent project_dir fs1 ++ ["sys.lua"]) <> Some IsDir ->
  q <> copy_parent project_dir fs1 ++ ["sys.lua"] ->
  stat (copied_fs project_dir fs1 c t m) q = stat fs1 q.
Proof.
  intros Htgt Hq. unfold stat, copied_fs. simpl. apply set_node_frame.
  - exact I.
  - intros es Hes. apply Htgt. apply stat_dir. eauto.
  - assumption.
Qed.

(** The second step changes the copy target at most. *)
Lemma second_step_frame project_dir fs1 out1 q :
  q <> copy_parent project_dir fs1 ++ ["sys.lua"] ->
  stat (fs_of (fst (copy_sys_lua project_dir (World fs1 out1)))) q = stat fs1 q.
Proof.
  intros Hq.
  destruct (second_step_cases project_dir fs1 out1)
    as [(out2 & r & -> & _)|(c & t & m & _ & _ & Htgt & ->)]; simpl; [reflexivity|].
  apply stat_copied_fs_frame; assumption.
Qed.

Lemma copy_parent_frame project_dir fs fs1 :
  stat fs1 (sys_lua_dst project_dir) = stat fs (sys_lua_dst project_dir) ->
  copy_parent project_dir fs1 = copy_parent project_dir fs.
Proof.
  intros H. unfold copy_parent.
  assert (path_isdir (sys_lua_dst project_dir) fs1 = path_isdir (sys_lua_dst project_dir) fs)
    as ->; [|reflexivity].
  apply eq_true_iff_eq. rewrite !path_isdir_stat, H. reflexivity.
Qed.

Lemma first_step_ok_dst project_dir fs fs1 out1 :
  first_step_ok project_dir fs fs1 out1 ->
  stat fs1 (sys_lua_dst project_dir) = stat fs (sys_lua_dst project_dir).
Proof.
  intros (_ & Hframe & _). apply Hframe. right.
  unfold sys_lua_dst, path_join. apply below_data_not_prefix.
Qed.

Lemma first_step_ok_src project_dir fs fs1 out1 :
  first_step_ok project_dir fs fs1 out1 ->
  stat fs1 (sys_lua_src project_dir) = stat fs (sys_lua_src project_dir).
Proof.
  intros (_ & Hframe & _). apply Hframe. right.
  unfold sys_lua_src, path_join. apply lua_not_prefix_data.
Qed.

(** A source that exists sits in a project root that is a directory. *)
Lemma src_exists_root project_dir fs :
  stat fs (sys_lua_src project_dir) <> None -> can_be_dir project_dir fs = true.
Proof.
  intros H. unfold sys_lua_src, lua_dir, path_join in H.
  apply stat_parent in H.
  assert (stat fs (project_dir ++ ["lua"]) <> None) as H' by congruence.
  apply stat_parent, stat_dir in H' as [es Hes].
  unfold can_be_dir. rewrite Hes. reflexivity.
Qed.

Lemma data_exists_root project_dir fs :
  stat fs (data_dir project_dir) <> None -> can_be_dir project_dir fs = true.
Proof.
  intros H. unfold data_dir, path_join in H.
  apply stat_parent, stat_dir in H as [es Hes].
  unfold can_be_dir. rewrite Hes. reflexivity.
Qed.

(** A run from a filesystem in which the first step has nothing to do and
    the second writes nothing ends on that filesystem. *)
Lemma run_of_steps project_dir fs fs1 out1 :
  first_step_ok project_dir fs fs1 out1 ->
  run project_dir fs =
  match copy_sys_lua project_dir (World fs1 out1) with
  | (w2, Raised e) => (w2, Raised e)
  | (w2, Returned _) => (World (fs_of w2) (console w2 ++ [completed_line]), Returned tt)
  end.
Proof. intros (Hfirst & _). rewrite run_eq, Hfirst. reflexivity. Qed.

Lemma data_present_first_step project_dir fs :
  stat fs (data_dir project_dir) <> None -> first_step_ok project_dir fs fs [].
Proof.
  intros Hdata. unfold first_step_ok. rewrite ensure_data_dir_eq. simpl.
  apply path_exists_stat in Hdata as Hex. rewrite Hex.
  split; [reflexivity|]. split; [reflexivity|]. left. auto.
Qed.
End OnPosixRuns.

(** ** The stager on the POSIX tree: what a run does *)

Section StagerOnPosix.
Implicit Types (project_dir : path) (fs : posix_fs).

Lemma is_file_false_exists (e : option entry) :
  is_file e = false -> e <> None -> e = Some IsDir.
Proof. destruct e as [[c t m|]|]; simpl; congruence. Qed.


(** C2. Where [lua/sys.lua] does not exist (and the project root is, or
    can be made, a directory), a run returns, has printed the warning that
    names the missing path and not the copy line, and [data/sys.lua] is
    exactly what it was: missing, or the same entry with the same bytes
    and metadata. *)
Theorem missing_source_skipped project_dir fs :
  stat fs (sys_lua_src project_dir) = None ->
  can_be_dir project_dir fs = true ->
  result project_dir fs = Returned tt /\
  stat (final project_dir fs) (sys_lua_dst project_dir) = stat fs (sys_lua_dst project_dir) /\
  In (warning_line (sys_lua_src project_dir)) (printed project_dir fs) /\
  ~ In copied_line (printed project_dir fs).
Proof.
  intros Hsrc Hroot.
  destruct (first_step project_dir fs) as [[Hno _]|[_ (fs1 & out1 & Hok)]]; [congruence|].
  pose proof (first_step_ok_src _ _ _ _ Hok) as Hsrc1. rewrite Hsrc in Hsrc1.
  pose proof (first_step_ok_dst _ _ _ _ Hok) as Hdst1.
  unfold result, final, printed. rewrite (run_of_steps _ _ _ _ Hok).
  rewrite (second_step_missing _ _ _ Hsrc1). simpl.
  split; [reflexivity|]. split; [assumption|]. split.
  - rewrite !in_app_iff. simpl. auto.
  - rewrite !in_app_iff. simpl.
    pose proof (created_line_not_copied (data_dir project_dir)).
    pose proof (warning_line_not_copied (sys_lua_src project_dir)).
    pose proof copied_line_not_completed.
    destruct Hok as (_ & _ & [(_ & _ & ->)|(_ & _ & ->)]); simpl; intuition congruence.
Qed.

Lemma stat_prefix_dir fs (p q : path) :
  stat fs p = Some IsDir -> q `prefix_of` p -> stat fs q = Some IsDir.
Proof.
  intros Hp [k ->]. destruct k as [|s k]; [rewrite app_nil_r in Hp; assumption|].
  destruct (is_dir (stat fs q)) eqn:Hq; [apply is_dir_iff; assumption|].
  apply is_dir_false in Hq. rewrite (stat_below fs q (s :: k)) in Hp; congruence.
Qed.

Lemma data_not_target project_dir fs1 :
  data_dir project_dir <> copy_parent project_dir fs1 ++ ["sys.lua"].
Proof.
  unfold copy_parent. destruct (path_isdir _ fs1).
  - unfold sys_lua_dst, path_join. rewrite <- app_assoc. simpl.
    intros E. apply (f_equal length) in E. rewrite !length_app in E. simpl in E. lia.
  - intros E. apply (f_equal length) in E. rewrite !length_app in E. simpl in E. lia.
Qed.

(** C4. Where [data] does not exist (and the project root is, or can be
    made, a directory), a run leaves [data] a directory, and with it every
    segment prefix of its path, whether or not the source exists and
    whether or not the copy then raises. *)
Theorem data_dir_created project_dir fs :
  stat fs (data_dir project_dir) = None ->
  can_be_dir project_dir fs = true ->
  stat (final project_dir fs) (data_dir project_dir) = Some IsDir /\
  (forall q, q `prefix_of` data_dir project_dir -> stat (final project_dir fs) q = Some IsDir).
Proof.
  intros Hdata Hroot.
  destruct (first_step project_dir fs) as [[Hno _]|[_ (fs1 & out1 & Hok)]]; [congruence|].
  assert (Hdata1 : stat fs1 (data_dir project_dir) = Some IsDir).
  { destruct Hok as (_ & _ & [(Hex & _)|(_ & Hdir & _)]); [congruence|assumption]. }
  assert (Hfinal : stat (final project_dir fs) (data_dir project_dir) = Some IsDir).
  { unfold final. rewrite (run_of_steps _ _ _ _ Hok).
    pose proof (second_step_frame project_dir fs1 out1 (data_dir project_dir)
                  (data_not_target project_dir fs1)) as Hframe.
    destruct (copy_sys_lua project_dir (World fs1 out1)) as [w2 [[]|e]]; simpl in *;
      congruence. }
  split; [assumption|]. intros q Hq. eapply stat_prefix_dir; eassumption.
Qed.
Lemma final_of_steps project_dir fs fs1 out1 :
  first_step_ok project_dir fs fs1 out1 ->
  final project_dir fs = fs_of (fst (copy_sys_lua project_dir (World fs1 out1))).
Proof.
  intros Hok. unfold final. rewrite (run_of_steps _ _ _ _ Hok).
  destruct (copy_sys_lua project_dir (World fs1 out1)) as [w2 [[]|e]]; reflexivity.
Qed.

Lemma final_of_fault project_dir fs e :
  ensure_data_dir project_dir (World fs []) = (World fs [], Raised e) ->
  final project_dir fs = fs.
Proof. intros H. unfold final. rewrite run_eq, H. reflexivity. Qed.

(** What the second step does to the filesystem does not depend on the
    console. *)
Lemma copy_sys_lua_fs project_dir fs1 out1 out1' :
  fs_of (fst (copy_sys_lua project_dir (World fs1 out1))) =
  fs_of (fst (copy_sys_lua project_dir (World fs1 out1'))).
Proof.
  rewrite !copy_sys_lua_eq. simpl.
  destruct (path_exists (sys_lua_src project_dir) fs1); [|reflexivity].
  destruct (copy2 _ _ fs1) as [fs2 [[]|e]]; reflexivity.
Qed.

(** A run from a filesystem where [data] exists is the second step. *)
Lemma final_data_present project_dir fs out :
  stat fs (data_dir project_dir) <> None ->
  final project_dir fs = fs_of (fst (copy_sys_lua project_dir (World fs out))).
Proof.
  intros Hdata. rewrite (final_of_steps _ _ _ _ (data_present_first_step _ _ Hdata)).
  apply copy_sys_lua_fs.
Qed.

(** C3. A second run, on the filesystem the first run left, changes
    nothing in the tree: in particular [data/sys.lua] is after two runs
    what it is after one. *)
Theorem stager_idempotent project_dir fs :
  tree (final project_dir (final project_dir fs)) = tree (final project_dir fs) /\
  stat (final project_dir (final project_dir fs)) (sys_lua_dst project_dir) =
  stat (final project_dir fs) (sys_lua_dst project_dir).
Proof.
  assert (Htree : tree (final project_dir (final project_dir fs)) =
                  tree (final project_dir fs)).
  { destruct (first_step project_dir fs) as [[_ Hfault]|[_ (fs1 & out1 & Hok)]].
    { rewrite (final_of_fault _ _ _ Hfault), (final_of_fault _ _ _ Hfault). reflexivity. }
    pose proof (first_step_data _ _ _ _ Hok) as Hdata1.
    rewrite (final_of_steps _ _ _ _ Hok).
    destruct (second_step_cases project_dir fs1 out1)
      as [(out2 & r & Hsame & _)|(c & t & m & Hsrc1 & Hpar1 & Htgt1 & Hcopied)].
    - (* the first run wrote nothing after the first step *)
      rewrite Hsame. simpl.
      rewrite (final_data_present _ _ out1 Hdata1), Hsame. reflexivity.
    - (* the first run copied *)
      rewrite Hcopied. simpl. set (fs2 := copied_fs project_dir fs1 c t m).
      set (tgt := copy_parent project_dir fs1 ++ ["sys.lua"]) in *.
      assert (Hframe : forall q, q <> tgt -> stat fs2 q = stat fs1 q).
      { intros q Hq. apply stat_copied_fs_frame; assumption. }
      assert (Htgt2 : stat fs2 tgt = Some (IsFile c t m)).
      { apply stat_copied_fs_target; assumption. }
      assert (Hdata2 : stat fs2 (data_dir project_dir) <> None).
      { rewrite Hframe; [assumption|apply data_not_target]. }
      assert (Hsrc2 : stat fs2 (sys_lua_src project_dir) = Some (IsFile c t m)).
      { rewrite Hframe; [assumption|apply src_not_target]. }
      assert (Hpar : copy_parent project_dir fs2 = copy_parent project_dir fs1).
      { unfold copy_parent.
        destruct (path_isdir (sys_lua_dst project_dir) fs1) eqn:Hd1.
        - assert (path_isdir (sys_lua_dst project_dir) fs2 = true) as ->; [|reflexivity].
          apply path_isdir_stat. rewrite Hframe; [apply path_isdir_stat; assumption|].
          unfold tgt, copy_parent. rewrite Hd1.
          intros E. apply (f_equal length) in E. rewrite !length_app in E.
          simpl in E. lia.
        - assert (path_isdir (sys_lua_dst project_dir) fs2 = false) as ->; [|reflexivity].
          apply not_true_is_false. rewrite path_isdir_stat.
          assert (sys_lua_dst project_dir = tgt) as ->.
          { unfold tgt, copy_parent. rewrite Hd1. reflexivity. }
          rewrite Htgt2. discriminate. }
      rewrite (final_data_present _ _ [] Hdata2).
      rewrite (second_step_copied _ _ _ c t m Hsrc2).
      + simpl. unfold copied_fs. simpl. rewrite Hpar. fold tgt.
        apply set_node_set_node.
      + rewrite Hpar, Hframe; [assumption|].
        intros E. apply (f_equal length) in E. unfold tgt in E.
        rewrite !length_app in E. simpl in E. lia.
      + rewrite Hpar. fold tgt. rewrite Htgt2. discriminate. }
  split; [assumption|]. apply stat_tree. assumption.
Qed.

(** C5 (as amended). A run changes no entry other than the copy target and
    the missing segments of the path to [data]: every path that existed
    before the run, or that is not a prefix of [data], and that is not the
    copy target, shows after the run what it showed before. The copy
    target is [data/sys.lua], or [data/sys.lua/sys.lua] when
    [data/sys.lua] is a directory. In particular nothing at or below [lua]
    changes, and a project root that existed is unchanged. *)
Theorem writes_only_staging project_dir fs :
  (forall q,
     q <> copy_target (sys_lua_src project_dir) (sys_lua_dst project_dir) fs ->
     stat fs q <> None \/ ~ q `prefix_of` data_dir project_dir ->
     stat (final project_dir fs) q = stat fs q) /\
  (forall k, stat (final project_dir fs) (lua_dir project_dir ++ k) =
             stat fs (lua_dir project_dir ++ k)) /\
  (stat fs project_dir <> None -> stat (final project_dir fs) project_dir = stat fs project_dir).
Proof.
  assert (Hmain : forall q,
     q <> copy_target (sys_lua_src project_dir) (sys_lua_dst project_dir) fs ->
     stat fs q <> None \/ ~ q `prefix_of` data_dir project_dir ->
     stat (final project_dir fs) q = stat fs q).
  { intros q Hq Hold.
    destruct (first_step project_dir fs) as [[_ Hfault]|[_ (fs1 & out1 & Hok)]].
    { rewrite (final_of_fault _ _ _ Hfault). reflexivity. }
    rewrite (final_of_steps _ _ _ _ Hok).
    rewrite copy_target_parent in Hq.
    rewrite <- (copy_parent_frame project_dir fs fs1 (first_step_ok_dst _ _ _ _ Hok)) in Hq.
    rewrite (second_step_frame _ _ _ _ Hq).
    destruct Hok as (_ & Hframe & _). apply Hframe. assumption. }
  split; [exact Hmain|]. split.
  - intros k. apply Hmain.
    + rewrite copy_target_parent. unfold copy_parent.
      destruct (path_isdir _ fs).
      * unfold sys_lua_dst, path_join. rewrite <- !app_assoc. apply lua_not_data.
      * rewrite <- (app_nil_r (data_dir project_dir)), <- app_assoc. apply lua_not_data.
    + right. apply lua_not_prefix_data.
  - intros Hroot. apply Hmain; [|left; assumption].
    rewrite copy_target_parent. unfold copy_parent.
    destruct (path_isdir _ fs); unfold sys_lua_dst, data_dir, path_join;
      rewrite <- ?app_assoc; intros E; apply (f_equal length) in E;
      rewrite !length_app in E; simpl in E; lia.
Qed.
(** The console of a run whose first step returned. *)
Lemma printed_cases project_dir fs fs1 out1 :
  first_step_ok project_dir fs fs1 out1 ->
  (stat fs (sys_lua_src project_dir) = None /\
   result project_dir fs = Returned tt /\
   printed project_dir fs = out1 ++ [warning_line (sys_lua_src project_dir); completed_line]) \/
  (stat fs (sys_lua_src project_dir) <> None /\
   ((exists e, result project_dir fs = Raised e) /\ printed project_dir fs = out1 \/
    result project_dir fs = Returned tt /\
    printed project_dir fs = out1 ++ [copied_line; completed_line])).
Proof.
  intros Hok. pose proof (first_step_ok_src _ _ _ _ Hok) as Hsrc1.
  unfold result, printed. rewrite (run_of_steps _ _ _ _ Hok), copy_sys_lua_eq. simpl.
  destruct (path_exists (sys_lua_src project_dir) fs1) eqn:Hex.
  - right. apply path_exists_stat in Hex. rewrite Hsrc1 in Hex. split; [assumption|].
    destruct (copy2 _ _ fs1) as [fs2 [[]|e]]; simpl.
    + right. rewrite <- app_assoc. auto.
    + left. eauto.
  - left. apply path_exists_false in Hex. rewrite Hsrc1 in Hex.
    simpl. rewrite <- app_assoc. auto.
Qed.

(** C8. The line [Created data directory: <data_dir>] is printed by a run
    exactly when [data] did not exist before it (the project root being,
    or being creatable as, a directory): never when anything, directory or
    not, was at that path. *)
Theorem created_line_iff_absent project_dir fs :
  can_be_dir project_dir fs = true ->
  (In (created_line (data_dir project_dir)) (printed project_dir fs) <->
   path_exists (data_dir project_dir) fs = false).
Proof.
  intros Hroot. rewrite path_exists_false.
  destruct (first_step project_dir fs) as [[Hno _]|[_ (fs1 & out1 & Hok)]]; [congruence|].
  pose proof (created_line_not_copied (data_dir project_dir)).
  pose proof (created_line_not_completed (data_dir project_dir)).
  pose proof (created_line_not_warning (data_dir project_dir) (sys_lua_src project_dir)).
  destruct (printed_cases _ _ _ _ Hok) as [(_ & _ & ->)|(_ & [(_ & ->)|(_ & ->)])];
    destruct Hok as (_ & _ & [(Hex & _ & ->)|(Hmiss & _ & ->)]); simpl;
    intuition congruence.
Qed.

(** C9. Where [data] is a regular file, a run makes no directory: the
    creation line is not printed and [data] is the same file afterwards.
    If [lua/sys.lua] exists as well, the run raises out of the copy
    ([NotADirectoryError] for a source file, [IsADirectoryError] for a
    source directory), nothing is staged and the completion line is not
    printed. *)
Theorem data_is_regular_file project_dir fs c t m :
  stat fs (data_dir project_dir) = Some (IsFile c t m) ->
  ~ In (created_line (data_dir project_dir)) (printed project_dir fs) /\
  stat (final project_dir fs) (data_dir project_dir) = Some (IsFile c t m) /\
  (stat fs (sys_lua_src project_dir) <> None ->
   result project_dir fs =
     Raised (if is_dir (stat fs (sys_lua_src project_dir))
             then IsADirectoryError else NotADirectoryError) /\
   stat (final project_dir fs) (sys_lua_dst project_dir) = None /\
   ~ In completed_line (printed project_dir fs)).
Proof.
  intros Hdata.
  assert (Hdata' : stat fs (data_dir project_dir) <> None) by congruence.
  pose proof (data_present_first_step _ _ Hdata') as Hok.
  assert (Hdst : stat fs (sys_lua_dst project_dir) = None).
  { unfold sys_lua_dst, path_join. apply stat_below; congruence. }
  assert (Hpar : copy_parent project_dir fs = data_dir project_dir).
  { unfold copy_parent.
    assert (path_isdir (sys_lua_dst project_dir) fs = false) as ->; [|reflexivity].
    apply not_true_is_false. rewrite path_isdir_stat, Hdst. discriminate. }
  split; [|split].
  - pose proof (created_line_not_copied (data_dir project_dir)).
    pose proof (created_line_not_completed (data_dir project_dir)).
    pose proof (created_line_not_warning (data_dir project_dir) (sys_lua_src project_dir)).
    destruct (printed_cases _ _ _ _ Hok) as [(_ & _ & ->)|(_ & [(_ & ->)|(_ & ->)])];
      simpl; intuition congruence.
  - rewrite (final_of_steps _ _ _ _ Hok), second_step_frame; [assumption|].
    apply data_not_target.
  - intros Hsrc.
    assert (Hrun : run project_dir fs =
              (World fs [], Raised (if is_dir (stat fs (sys_lua_src project_dir))
                                    then IsADirectoryError else NotADirectoryError))).
    { rewrite (run_of_steps _ _ _ _ Hok).
      destruct (stat fs (sys_lua_src project_dir)) as [[c' t' m'|]|] eqn:Hs; [| |congruence].
      - rewrite (second_step_fault _ _ _ c' t' m' Hs).
        + rewrite Hpar. fold (path_join (data_dir project_dir) "sys.lua").
          fold (sys_lua_dst project_dir).
          unfold sys_lua_dst, path_join. rewrite lookup_node_snoc.
          apply stat_file in Hdata. rewrite Hdata. reflexivity.
        + right. rewrite Hpar, Hdata. discriminate.
      - rewrite (second_step_dir _ _ _ Hs). reflexivity. }
    unfold result, final. rewrite Hrun. simpl. split; [reflexivity|]. split; [assumption|].
    unfold printed. rewrite Hrun. simpl. auto.
Qed.

(** C10. Where [lua/sys.lua] is a directory, a run takes the copy branch
    and raises [IsADirectoryError] out of it: neither the warning nor the
    copy line is printed. The warning is printed only when nothing is at
    [lua/sys.lua], and then always (the project root being, or being
    creatable as, a directory). *)
Theorem source_wrong_type project_dir fs :
  (stat fs (sys_lua_src project_dir) = Some IsDir ->
   result project_dir fs = Raised IsADirectoryError /\
   ~ In (warning_line (sys_lua_src project_dir)) (printed project_dir fs) /\
   ~ In copied_line (printed project_dir fs)) /\
  (In (warning_line (sys_lua_src project_dir)) (printed project_dir fs) ->
   path_exists (sys_lua_src project_dir) fs = false) /\
  (can_be_dir project_dir fs = true ->
   path_exists (sys_lua_src project_dir) fs = false ->
   In (warning_line (sys_lua_src project_dir)) (printed project_dir fs)).
Proof.
  pose proof (created_line_not_copied (data_dir project_dir)).
  pose proof (created_line_not_warning (data_dir project_dir) (sys_lua_src project_dir)).
  pose proof (warning_line_not_copied (sys_lua_src project_dir)).
  pose proof (warning_line_not_completed (sys_lua_src project_dir)).
  pose proof copied_line_not_completed.
  split; [|split].
  - intros Hsrc.
    assert (Hroot : can_be_dir project_dir fs = true).
    { apply src_exists_root. congruence. }
    destruct (first_step project_dir fs) as [[Hno _]|[_ (fs1 & out1 & Hok)]]; [congruence|].
    pose proof (first_step_ok_src _ _ _ _ Hok) as Hsrc1. rewrite Hsrc in Hsrc1.
    unfold result, printed. rewrite (run_of_steps _ _ _ _ Hok).
    rewrite (second_step_dir _ _ _ Hsrc1). simpl. split; [reflexivity|].
    destruct Hok as (_ & _ & [(_ & _ & ->)|(_ & _ & ->)]); simpl; intuition congruence.
  - intros Hin. apply path_exists_false.
    destruct (first_step project_dir fs) as [[_ Hfault]|[_ (fs1 & out1 & Hok)]].
    { unfold printed in Hin. rewrite run_eq, Hfault in Hin. destruct Hin. }
    destruct (printed_cases _ _ _ _ Hok) as [(Hnone & _)|(_ & [(_ & Hp)|(_ & Hp)])];
      [assumption| |]; rewrite Hp in Hin;
      destruct Hok as (_ & _ & [(_ & _ & ->)|(_ & _ & ->)]); simpl in Hin;
      intuition congruence.
  - intros Hroot Hsrc. apply path_exists_false in Hsrc.
    destruct (first_step project_dir fs) as [[Hno _]|[_ (fs1 & out1 & Hok)]]; [congruence|].
    destruct (printed_cases _ _ _ _ Hok) as [(_ & _ & ->)|(Hex & _)]; [|congruence].
    rewrite in_app_iff. simpl. auto.
Qed.
End StagerOnPosix.

(** ** The scenarios, run *)

(** Scenario A: an empty project. *)
Example scenario_empty_project :
  printed proj fs_empty =
    ["Created data directory: /proj/data";
     "WARNING: sys.lua not found at /proj/lua/sys.lua";
     "Pre-build script completed"] /\
  result proj fs_empty = Returned tt /\
  stat (final proj fs_empty) (data_dir proj) = Some IsDir /\
  stat (final proj fs_empty) (sys_lua_dst proj) = None.
Proof. vm_compute. repeat split. Qed.

(** Scenario C: a stale copy is overwritten. *)
Example scenario_stale_copy :
  stat fs_stale (sys_lua_dst proj) = Some (IsFile bytes_old 5 384) /\
  stat (final proj fs_stale) (sys_lua_dst proj) = Some (IsFile bytes_new 77 420) /\
  printed proj fs_stale = ["Copied sys.lua to data folder"; "Pre-build script completed"].
Proof. vm_compute. repeat split. Qed.

(** Scenario B: the source is staged into a [data] made by the run. *)
Example scenario_fresh_copy :
  stat (final proj fs_fresh) (sys_lua_dst proj) = Some (IsFile bytes_new 77 420) /\
  printed proj fs_fresh =
    ["Created data directory: /proj/data";
     "Copied sys.lua to data folder";
     "Pre-build script completed"].
Proof. vm_compute. repeat split. Qed.

(** A project root that is a regular file: [os.makedirs] raises, nothing is
    printed. *)
Example scenario_root_is_file :
  can_be_dir proj fs_root_is_file = false /\
  result proj fs_root_is_file = Raised NotADirectoryError /\
  printed proj fs_root_is_file = [].
Proof. vm_compute. repeat split. Qed.

(** Permission denied on [os.makedirs], disk full on [shutil.copy2]: both
    come out of the run as they were raised. *)
Example scenario_permission_denied :
  @result _ read_only_os proj fs_empty = Raised PermissionError /\
  @printed _ read_only_os proj fs_empty = [].
Proof. vm_compute. repeat split. Qed.

Example scenario_disk_full :
  @result _ read_only_os proj fs_stale = Raised (OSError 28) /\
  @printed _ read_only_os proj fs_stale = [].
Proof. vm_compute. repeat split. Qed.

(** The creation line carries the string [os.path.join] computes. *)
Lemma created_line_string (project_dir : path) :
  Forall (fun x => valid_name x = true) project_dir ->
  created_line (data_dir project_dir) =
  String.append "Created data directory: " (posixpath_join (path_str project_dir) "data").
Proof.
  intros Hp. unfold created_line, data_dir.
  rewrite posixpath_join_segments; [reflexivity|assumption|reflexivity].
Qed.

(** An existing directory is a project root the theorems above apply to. *)
Lemma project_root_can_be_dir (project_dir : path) (fs : posix_fs) :
  stat fs project_dir = Some IsDir -> can_be_dir project_dir fs = true.
Proof. intros [es Hes]%stat_dir. unfold can_be_dir. rewrite Hes. reflexivity. Qed.

(** ** Instances *)



(** With [data/sys.lua] a directory a run returns and [data/sys.lua] is
    still that directory. *)
Example copy_lands_below_directory :
  result proj fs_dst_is_dir = Returned tt /\
  stat (final proj fs_dst_is_dir) (sys_lua_dst proj) = Some IsDir.
Proof. vm_compute. repeat split. Qed.

Lemma missing_source_skipped_witness :
  stat fs_empty (sys_lua_src proj) = None /\
  result proj fs_empty = Returned tt /\
  stat (final proj fs_empty) (sys_lua_dst proj) = stat fs_empty (sys_lua_dst proj) /\
  In (warning_line (sys_lua_src proj)) (printed proj fs_empty) /\
  ~ In copied_line (printed proj fs_empty).
Proof.
  split; [reflexivity|].
  apply (missing_source_skipped proj fs_empty); reflexivity.
Defined.

(** A project root two levels below what exists. *)
Lemma data_dir_created_witness :
  stat fs_empty (data_dir ["proj"; "build"; "fw"]) = None /\
  stat (final ["proj"; "build"; "fw"] fs_empty) (data_dir ["proj"; "build"; "fw"]) = Some IsDir /\
  (forall q, q `prefix_of` data_dir ["proj"; "build"; "fw"] ->
             stat (final ["proj"; "build"; "fw"] fs_empty) q = Some IsDir).
Proof.
  split; [reflexivity|].
  apply (data_dir_created ["proj"; "build"; "fw"] fs_empty); reflexivity.
Defined.

(** C5 as stated fails where [data/sys.lua] is a directory: the run writes
    [data/sys.lua/sys.lua], which is neither [data] nor [data/sys.lua]. *)
Lemma writes_outside_when_dst_is_dir :
  sys_lua_dst proj ++ ["sys.lua"] <> data_dir proj /\
  sys_lua_dst proj ++ ["sys.lua"] <> sys_lua_dst proj /\
  stat (final proj fs_dst_is_dir) (sys_lua_dst proj ++ ["sys.lua"]) <>
  stat fs_dst_is_dir (sys_lua_dst proj ++ ["sys.lua"]).
Proof. vm_compute. repeat split; discriminate. Qed.

Lemma writes_only_staging_witness :
  sys_lua_src proj <> copy_target (sys_lua_src proj) (sys_lua_dst proj) fs_stale /\
  stat fs_stale (sys_lua_src proj) <> None /\
  stat (final proj fs_stale) (sys_lua_src proj) = stat fs_stale (sys_lua_src proj).
Proof.
  assert (H1 : sys_lua_src proj <> copy_target (sys_lua_src proj) (sys_lua_dst proj) fs_stale)
    by (vm_compute; discriminate).
  assert (H2 : stat fs_stale (sys_lua_src proj) <> None) by (vm_compute; discriminate).
  split; [exact H1|]. split; [exact H2|].
  apply (proj1 (writes_only_staging proj fs_stale)); [exact H1|left; exact H2].
Defined.

(** The copy of a directory raises out of the run. *)
Lemma faults_propagate_witness :
  raised_by_copy2 proj fs_src_is_dir IsADirectoryError /\
  result proj fs_src_is_dir = Raised IsADirectoryError /\
  ~ In completed_line (printed proj fs_src_is_dir).
Proof.
  assert (H : raised_by_copy2 proj fs_src_is_dir IsADirectoryError).
  { eexists. vm_compute. repeat split. }
  destruct (faults_propagate proj fs_src_is_dir IsADirectoryError) as (Hiff & Hquiet & _).
  split; [exact H|]. split.
  - apply Hiff. right. exact H.
  - apply Hquiet. apply Hiff. right. exact H.
Defined.

Lemma completed_last_witness :
  result proj fs_stale = Returned tt /\
  last (printed proj fs_stale) = Some completed_line /\
  (In copied_line (printed proj fs_stale) \/
   In (warning_line (sys_lua_src proj)) (printed proj fs_stale)).
Proof.
  split; [reflexivity|].
  apply (completed_last proj fs_stale); reflexivity.
Defined.

Lemma created_line_iff_absent_witness :
  can_be_dir proj fs_fresh = true /\
  (In (created_line (data_dir proj)) (printed proj fs_fresh) <->
   path_exists (data_dir proj) fs_fresh = false).
Proof.
  split; [reflexivity|].
  apply (created_line_iff_absent proj fs_fresh); reflexivity.
Defined.

Lemma data_is_regular_file_witness :
  stat fs_data_is_file (data_dir proj) = Some (IsFile bytes_old 5 384) /\
  ~ In (created_line (data_dir proj)) (printed proj fs_data_is_file) /\
  stat (final proj fs_data_is_file) (data_dir proj) = Some (IsFile bytes_old 5 384) /\
  result proj fs_data_is_file = Raised NotADirectoryError /\
  stat (final proj fs_data_is_file) (sys_lua_dst proj) = None /\
  ~ In completed_line (printed proj fs_data_is_file).
Proof.
  split; [reflexivity|].
  destruct (data_is_regular_file proj fs_data_is_file bytes_old 5 384 eq_refl)
    as (Hquiet & Hkept & Hfault).
  split; [exact Hquiet|]. split; [exact Hkept|].
  apply Hfault. vm_compute. discriminate.
Defined.

Lemma source_wrong_type_witness :
  stat fs_src_is_dir (sys_lua_src proj) = Some IsDir /\
  result proj fs_src_is_dir = Raised IsADirectoryError /\
  ~ In (warning_line (sys_lua_src proj)) (printed proj fs_src_is_dir) /\
  ~ In copied_line (printed proj fs_src_is_dir).
Proof.
  split; [reflexivity|].
  apply (proj1 (source_wrong_type proj fs_src_is_dir)). reflexivity.
Defined.

(** ** More on runs: consoles, outcomes, what a run keeps *)

Section Consoles.
Context {FS : Type} `{os : OS FS}.
Implicit Types (project_dir : path) (fs : FS).

(** X1. Over any operating system, the console of a run is an optional
    creation line (there only if [data] did not exist) followed by nothing,
    when the run raised, or by exactly one of the copy line and the warning
    and then the completion line, when it returned. The copy line and the
    warning are never both printed. *)
Theorem console_shapes project_dir fs :
  (exists first branch,
     printed project_dir fs = first ++ branch /\
     (first = [] \/
      first = [created_line (data_dir project_dir)] /\
      os_path_exists (data_dir project_dir) fs = false) /\
     (branch = [] /\ (exists e, result project_dir fs = Raised e) \/
      branch = [copied_line; completed_line] /\ result project_dir fs = Returned tt \/
      branch = [warning_line (sys_lua_src project_dir); completed_line] /\
      result project_dir fs = Returned tt)) /\
  ~ (In copied_line (printed project_dir fs) /\
     In (warning_line (sys_lua_src project_dir)) (printed project_dir fs)).
Proof.
  assert (Hshape : exists first branch,
     printed project_dir fs = first ++ branch /\
     (first = [] \/
      first = [created_line (data_dir project_dir)] /\
      os_path_exists (data_dir project_dir) fs = false) /\
     (branch = [] /\ (exists e, result project_dir fs = Raised e) \/
      branch = [copied_line; completed_line] /\ result project_dir fs = Returned tt \/
      branch = [warning_line (sys_lua_src project_dir); completed_line] /\
      result project_dir fs = Returned tt)).
  { unfold printed, result. rewrite run_eq, ensure_data_dir_eq.
    destruct (os_path_exists (data_dir project_dir) fs) eqn:Hdata.
    - exists []. rewrite copy_sys_lua_eq.
      destruct (os_path_exists (sys_lua_src project_dir) fs).
      + destruct (shutil_copy2 _ _ fs) as [fs2 [[]|e2]]; simpl; eauto 10.
      + simpl. eauto 10.
    - destruct (os_makedirs (data_dir project_dir) fs) as [fs1 [[]|e1]].
      + exists [created_line (data_dir project_dir)]. rewrite copy_sys_lua_eq.
        destruct (os_path_exists (sys_lua_src project_dir) fs1).
        * destruct (shutil_copy2 _ _ fs1) as [fs2 [[]|e2]]; simpl; eauto 10.
        * simpl. eauto 10.
      + exists [], []. simpl. eauto 10. }
  split; [exact Hshape|].
  destruct Hshape as (first & branch & -> & Hfirst & Hbranch).
  pose proof (created_line_not_copied (data_dir project_dir)).
  pose proof (created_line_not_warning (data_dir project_dir) (sys_lua_src project_dir)).
  pose proof (warning_line_not_copied (sys_lua_src project_dir)).
  pose proof (warning_line_not_completed (sys_lua_src project_dir)).
  pose proof copied_line_not_completed.
  rewrite !in_app_iff.
  destruct Hfirst as [->|[-> _]], Hbranch as [[-> _]|[[-> _]|[-> _]]]; simpl;
    intuition congruence.
Qed.

End Consoles.

Section Outcomes.
Implicit Types (project_dir : path) (fs : posix_fs).

Lemma is_file_iff (e : option entry) : is_file e = true <-> exists c t m, e = Some (IsFile c t m).
Proof.
  destruct e as [[c t m|]|]; simpl; split; try discriminate; eauto;
    intros (? & ? & ? & ?); discriminate.
Qed.

Lemma target_not_prefix_data project_dir fs :
  ~ (copy_parent project_dir fs ++ ["sys.lua"]) `prefix_of` data_dir project_dir.
Proof.
  intros [r Hr]. apply (f_equal length) in Hr. revert Hr. unfold copy_parent.
  destruct (path_isdir _ fs); unfold sys_lua_dst, path_join; rewrite !length_app; simpl; lia.
Qed.

(** Every run on the tree, case by case: where it stops, on which
    filesystem and with which console. *)
Lemma run_cases project_dir fs :
  (can_be_dir project_dir fs = false /\
   run project_dir fs = (World fs [], Raised NotADirectoryError)) \/
  (can_be_dir project_dir fs = true /\
   exists fs1 out1,
     first_step_ok project_dir fs fs1 out1 /\
     ((stat fs (sys_lua_src project_dir) = None /\
       run project_dir fs =
       (World fs1 (out1 ++ [warning_line (sys_lua_src project_dir); completed_line]),
        Returned tt)) \/
      (stat fs (sys_lua_src project_dir) = Some IsDir /\
       run project_dir fs = (World fs1 out1, Raised IsADirectoryError)) \/
      (exists c t m,
         stat fs (sys_lua_src project_dir) = Some (IsFile c t m) /\
         ((is_file (stat fs (data_dir project_dir)) = true /\
           run project_dir fs = (World fs1 out1, Raised NotADirectoryError)) \/
          (is_file (stat fs (data_dir project_dir)) = false /\
           is_dir (stat fs (copy_parent project_dir fs ++ ["sys.lua"])) = true /\
           run project_dir fs = (World fs1 out1, Raised IsADirectoryError)) \/
          (is_file (stat fs (data_dir project_dir)) = false /\
           is_dir (stat fs (copy_parent project_dir fs ++ ["sys.lua"])) = false /\
           copy_parent project_dir fs1 = copy_parent project_dir fs /\
           stat (copied_fs project_dir fs1 c t m) (copy_parent project_dir fs ++ ["sys.lua"]) =
             Some (IsFile c t m) /\
           (forall q, q <> copy_parent project_dir fs ++ ["sys.lua"] ->
                      stat (copied_fs project_dir fs1 c t m) q = stat fs1 q) /\
           run project_dir fs =
           (World (copied_fs project_dir fs1 c t m) (out1 ++ [copied_line; completed_line]),
            Returned tt)))))).
Proof.
  destruct (first_step project_dir fs) as [[Hno Hfault]|[Hyes (fs1 & out1 & Hok)]].
  { left. split; [assumption|]. rewrite run_eq, Hfault. reflexivity. }
  right. split; [assumption|]. exists fs1, out1. split; [assumption|].
  pose proof (first_step_ok_src _ _ _ _ Hok) as Hsrc1.
  pose proof (first_step_ok_dst _ _ _ _ Hok) as Hdst1.
  pose proof (copy_parent_frame _ _ _ Hdst1) as Hpar.
  rewrite (run_of_steps _ _ _ _ Hok).
  destruct (stat fs (sys_lua_src project_dir)) as [[c t m|]|] eqn:Hsrc.
  - right. right. exists c, t, m. split; [reflexivity|].
    assert (Htgt1 : stat fs1 (copy_parent project_dir fs ++ ["sys.lua"]) =
                    stat fs (copy_parent project_dir fs ++ ["sys.lua"])).
    { destruct Hok as (_ & Hframe & _). apply Hframe. right. apply target_not_prefix_data. }
    destruct (is_file (stat fs (data_dir project_dir))) eqn:Hdata.
    + (* data is a regular file *)
      left. split; [reflexivity|].
      apply is_file_iff in Hdata as (c' & t' & m' & Hdata).
      assert (fs1 = fs) as ->.
      { destruct Hok as (_ & _ & [(_ & -> & _)|(Hnone & _)]); congruence. }
      assert (Hdst : stat fs (sys_lua_dst project_dir) = None).
      { unfold sys_lua_dst, path_join. apply stat_below; congruence. }
      assert (HP : copy_parent project_dir fs = data_dir project_dir).
      { unfold copy_parent.
        assert (path_isdir (sys_lua_dst project_dir) fs = false) as ->; [|reflexivity].
        apply not_true_is_false. rewrite path_isdir_stat, Hdst. discriminate. }
      rewrite (second_step_fault _ _ _ c t m Hsrc1).
      * rewrite HP. unfold data_dir at 1, path_join. rewrite lookup_node_snoc.
        fold (path_join project_dir "data"). fold (data_dir project_dir).
        apply stat_file in Hdata. rewrite Hdata. reflexivity.
      * right. rewrite HP, Hdata. discriminate.
    + (* data is, or has been made, a directory *)
      right.
      assert (Hdata1 : stat fs1 (data_dir project_dir) = Some IsDir).
      { destruct Hok as (_ & _ & [(Hex & -> & _)|(_ & Hdir & _)]); [|assumption].
        apply is_file_false_exists; assumption. }
      assert (HP1 : stat fs1 (copy_parent project_dir fs) = Some IsDir).
      { unfold copy_parent. destruct (path_isdir (sys_lua_dst project_dir) fs) eqn:Hd.
        - rewrite Hdst1. apply path_isdir_stat. assumption.
        - assumption. }
      destruct (is_dir (stat fs (copy_parent project_dir fs ++ ["sys.lua"]))) eqn:Htgt.
      * left. split; [reflexivity|]. split; [reflexivity|].
        apply is_dir_iff in Htgt. rewrite <- Htgt1 in Htgt.
        rewrite (second_step_fault _ _ _ c t m Hsrc1); [|left; rewrite Hpar; assumption].
        rewrite Hpar. apply stat_dir in Htgt as [es ->]. reflexivity.
      * right. split; [reflexivity|]. split; [reflexivity|]. split; [assumption|].
        apply is_dir_false in Htgt. rewrite <- Htgt1 in Htgt.
        rewrite <- Hpar in HP1, Htgt.
        split; [|split].
        -- rewrite <- Hpar. apply stat_copied_fs_target. assumption.
        -- intros q Hq. apply stat_copied_fs_frame; [assumption|]. rewrite Hpar. assumption.
        -- rewrite (second_step_copied _ _ _ c t m Hsrc1 HP1 Htgt). simpl.
           rewrite <- app_assoc. reflexivity.
  - right. left. split; [reflexivity|]. rewrite (second_step_dir _ _ _ Hsrc1). reflexivity.
  - left. split; [reflexivity|]. rewrite (second_step_missing _ _ _ Hsrc1). simpl.
    rewrite <- app_assoc. reflexivity.
Qed.
Lemma first_step_ok_console project_dir fs fs1 out1 :
  first_step_ok project_dir fs fs1 out1 ->
  out1 = if path_exists (data_dir project_dir) fs then []
         else [created_line (data_dir project_dir)].
Proof.
  intros (_ & _ & [(Hex & _ & ->)|(Hnone & _ & ->)]).
  - apply path_exists_stat in Hex. rewrite Hex. reflexivity.
  - apply path_exists_false in Hnone. rewrite Hnone. reflexivity.
Qed.

(** X3. A run returns only if the project root is, or can be made, a
    directory and either nothing is at [lua/sys.lua], or a regular file is
    there, [data] is not a regular file and the copy target is not a
    directory: a run that met a directory at [lua/sys.lua], a regular file
    at [data] or a directory at the copy target has raised. *)
Theorem run_returns_only_if project_dir fs :
  result project_dir fs = Returned tt ->
  can_be_dir project_dir fs = true /\
  (stat fs (sys_lua_src project_dir) = None \/
   is_file (stat fs (sys_lua_src project_dir)) = true /\
   is_file (stat fs (data_dir project_dir)) = false /\
   is_dir (stat fs (copy_target (sys_lua_src project_dir) (sys_lua_dst project_dir) fs)) = false).
Proof.
  unfold result. rewrite copy_target_parent.
  destruct (run_cases project_dir fs)
    as [[Hno ->]|(Hyes & fs1 & out1 & Hok &
                  [[Hsrc ->]|[[Hsrc ->]|(c & t & m & Hsrc &
                     [[Hdata ->]|[(Hdata & Htgt & ->)|(Hdata & Htgt & _ & _ & _ & ->)]])]])];
    simpl; try discriminate; intros _; split; try assumption; auto.
  right. rewrite Hsrc. auto.
Qed.

(** X4. The line [Copied sys.lua to data folder] is printed only after a
    copy that went through: the run returned, the source is a regular file,
    and the copy target (not always [data/sys.lua]) is then a regular file
    with the bytes, the modification time and the permission bits of the
    source. *)
Theorem copied_line_sound project_dir fs :
  In copied_line (printed project_dir fs) ->
  result project_dir fs = Returned tt /\
  exists c t m,
    stat fs (sys_lua_src project_dir) = Some (IsFile c t m) /\
    stat (final project_dir fs)
         (copy_target (sys_lua_src project_dir) (sys_lua_dst project_dir) fs) =
    Some (IsFile c t m).
Proof.
  pose proof (created_line_not_copied (data_dir project_dir)).
  pose proof (warning_line_not_copied (sys_lua_src project_dir)).
  pose proof copied_line_not_completed.
  unfold result, printed, final. rewrite copy_target_parent.
  destruct (run_cases project_dir fs)
    as [[Hno ->]|(Hyes & fs1 & out1 & Hok &
                  [[Hsrc ->]|[[Hsrc ->]|(c & t & m & Hsrc &
                     [[Hdata ->]|[(Hdata & Htgt & ->)|(Hdata & Htgt & _ & Hnew & _ & ->)]])]])];
    simpl; try rewrite (first_step_ok_console _ _ _ _ Hok);
    try (destruct (path_exists (data_dir project_dir) fs); simpl; intuition congruence).
  intros _. split; [reflexivity|]. exists c, t, m. auto.
Qed.

(** X5. A run removes nothing and changes the kind of nothing: every path
    that existed before the run exists after it, a directory as a directory
    and a regular file as a regular file. *)
Theorem entries_kept project_dir fs q :
  stat fs q <> None ->
  stat (final project_dir fs) q <> None /\
  is_dir (stat (final project_dir fs) q) = is_dir (stat fs q) /\
  is_file (stat (final project_dir fs) q) = is_file (stat fs q).
Proof.
  intros Hq.
  assert (Hsame : forall fs' : posix_fs, stat fs' q = stat fs q ->
            stat fs' q <> None /\ is_dir (stat fs' q) = is_dir (stat fs q) /\
            is_file (stat fs' q) = is_file (stat fs q)).
  { intros fs' ->. auto. }
  assert (Hfirst : forall fs1 out1, first_step_ok project_dir fs fs1 out1 ->
                                    stat fs1 q = stat fs q).
  { intros fs1 out1 (_ & Hframe & _). apply Hframe. left. assumption. }
  unfold final.
  destruct (run_cases project_dir fs)
    as [[Hno ->]|(Hyes & fs1 & out1 & Hok &
                  [[Hsrc ->]|[[Hsrc ->]|(c & t & m & Hsrc &
                     [[Hdata ->]|[(Hdata & Htgt & ->)|(Hdata & Htgt & _ & Hnew & Hold & ->)]])]])];
    simpl; try (apply Hsame; eauto; fail).
  destruct (decide (q = copy_parent project_dir fs ++ ["sys.lua"])) as [->|Hne].
  - rewrite Hnew. apply is_dir_false in Htgt.
    destruct (stat fs (copy_parent project_dir fs ++ ["sys.lua"])) as [[c' t' m'|]|];
      simpl; try congruence. auto.
  - apply Hsame. rewrite (Hold q Hne). eauto.
Qed.

(** X7. The console of a run, exactly: the creation line when the project
    root is, or can be made, a directory and [data] did not exist; then,
    when the run returned, the copy line or the warning, according to
    whether [lua/sys.lua] existed, and the completion line. *)
Theorem console_exact project_dir fs :
  printed project_dir fs =
  (if can_be_dir project_dir fs && negb (path_exists (data_dir project_dir) fs)
   then [created_line (data_dir project_dir)] else []) ++
  match result project_dir fs with
  | Returned _ =>
      [if path_exists (sys_lua_src project_dir) fs then copied_line
       else warning_line (sys_lua_src project_dir);
       completed_line]
  | Raised _ => []
  end.
Proof.
  assert (Hex : forall x, stat fs (sys_lua_src project_dir) = Some x ->
                          path_exists (sys_lua_src project_dir) fs = true).
  { intros x Hx. apply path_exists_stat. congruence. }
  unfold printed, result.
  destruct (run_cases project_dir fs)
    as [[Hno ->]|(Hyes & fs1 & out1 & Hok &
                  [[Hsrc ->]|[[Hsrc ->]|(c & t & m & Hsrc &
                     [[Hdata ->]|[(Hdata & Htgt & ->)|(Hdata & Htgt & _ & _ & _ & ->)]])]])];
    simpl; try (rewrite Hno; reflexivity);
    rewrite Hyes, (first_step_ok_console _ _ _ _ Hok); simpl;
    try rewrite (Hex _ Hsrc); try (apply path_exists_false in Hsrc; rewrite Hsrc);
    destruct (path_exists (data_dir project_dir) fs); reflexivity.
Qed.
End Outcomes.

Section Reruns.
Implicit Types (project_dir : path) (fs : posix_fs).

(** X8. A second run, on what a first run left, never prints the creation
    line: where the first run got past its first step [data] exists, and
    where it did not the second run stops there as well. *)
Theorem second_run_no_creation_line project_dir fs :
  ~ In (created_line (data_dir project_dir)) (printed project_dir (final project_dir fs)).
Proof.
  pose proof (created_line_not_copied (data_dir project_dir)) as N1.
  pose proof (created_line_not_completed (data_dir project_dir)) as N2.
  pose proof (created_line_not_warning (data_dir project_dir) (sys_lua_src project_dir)) as N3.
  (* where [data] exists no creation line is printed *)
  assert (Hpresent : forall F : posix_fs,
            stat F (data_dir project_dir) <> None ->
            ~ In (created_line (data_dir project_dir)) (printed project_dir F)).
  { intros F HF.
    destruct (printed_cases _ _ _ _ (data_present_first_step _ _ HF))
      as [(_ & _ & ->)|(_ & [(_ & ->)|(_ & ->)])]; simpl; intuition congruence. }
  unfold final.
  destruct (run_cases project_dir fs)
    as [[Hno Hrun]|(Hyes & fs1 & out1 & Hok &
                  [[Hsrc Hrun]|[[Hsrc Hrun]|(c & t & m & Hsrc &
                     [[Hdata Hrun]|[(Hdata & Htgt & Hrun)|
                                    (Hdata & Htgt & Hpar & Hnew & Hold & Hrun)]])]])];
    rewrite Hrun; simpl.
  - unfold printed. rewrite Hrun. simpl. auto.
  - apply Hpresent. eapply first_step_data; eassumption.
  - apply Hpresent. eapply first_step_data; eassumption.
  - apply Hpresent. eapply first_step_data; eassumption.
  - apply Hpresent. eapply first_step_data; eassumption.
  - apply Hpresent. rewrite Hold; [eapply first_step_data; eassumption|apply data_not_target].
Qed.
End Reruns.

(** X9. For a normalised project directory the creation line and the
    warning carry the strings [os.path.join] computes from the project
    directory's string: [<root>/data] and [<root>/lua/sys.lua]. *)
Theorem console_names_joined_paths (project_dir : path) :
  Forall (fun x => valid_name x = true) project_dir ->
  created_line (data_dir project_dir) =
    String.append "Created data directory: "
                  (posixpath_join (path_str project_dir) "data") /\
  warning_line (sys_lua_src project_dir) =
    String.append "WARNING: sys.lua not found at "
                  (posixpath_join (posixpath_join (path_str project_dir) "lua") "sys.lua").
Proof.
  intros Hp. unfold created_line, warning_line, data_dir, sys_lua_src, lua_dir.
  rewrite !(posixpath_join_segments project_dir) by (assumption || reflexivity).
  rewrite posixpath_join_segments; [auto| |reflexivity].
  unfold path_join. apply Forall_app. split; [assumption|].
  constructor; [reflexivity|constructor].
Qed.

(** ** Further instances *)

Lemma run_returns_only_if_witness :
  result proj fs_dst_is_dir = Returned tt /\
  can_be_dir proj fs_dst_is_dir = true /\
  (stat fs_dst_is_dir (sys_lua_src proj) = None \/
   is_file (stat fs_dst_is_dir (sys_lua_src proj)) = true /\
   is_file (stat fs_dst_is_dir (data_dir proj)) = false /\
   is_dir (stat fs_dst_is_dir
                (copy_target (sys_lua_src proj) (sys_lua_dst proj) fs_dst_is_dir)) = false).
Proof.
  split; [reflexivity|].
  apply (run_returns_only_if proj fs_dst_is_dir). reflexivity.
Defined.

(** With [data/sys.lua] a directory the copy line is printed, and the
    source is at [data/sys.lua/sys.lua]. *)
Lemma copied_line_sound_witness :
  In copied_line (printed proj fs_dst_is_dir) /\
  result proj fs_dst_is_dir = Returned tt /\
  exists c t m,
    stat fs_dst_is_dir (sys_lua_src proj) = Some (IsFile c t m) /\
    stat (final proj fs_dst_is_dir)
         (copy_target (sys_lua_src proj) (sys_lua_dst proj) fs_dst_is_dir) =
    Some (IsFile c t m).
Proof.
  assert (H : In copied_line (printed proj fs_dst_is_dir)) by (vm_compute; auto).
  split; [exact H|]. apply (copied_line_sound proj fs_dst_is_dir H).
Defined.

Lemma entries_kept_witness :
  stat fs_stale (sys_lua_dst proj) <> None /\
  stat (final proj fs_stale) (sys_lua_dst proj) <> None /\
  is_dir (stat (final proj fs_stale) (sys_lua_dst proj)) =
    is_dir (stat fs_stale (sys_lua_dst proj)) /\
  is_file (stat (final proj fs_stale) (sys_lua_dst proj)) =
    is_file (stat fs_stale (sys_lua_dst proj)).
Proof.
  assert (H : stat fs_stale (sys_lua_dst proj) <> None) by (vm_compute; discriminate).
  split; [exact H|]. apply (entries_kept proj fs_stale (sys_lua_dst proj) H).
Defined.

Lemma console_names_joined_paths_witness :
  created_line (data_dir proj) =
    String.append "Created data directory: " (posixpath_join (path_str proj) "data") /\
  warning_line (sys_lua_src proj) =
    String.append "WARNING: sys.lua not found at "
                  (posixpath_join (posixpath_join (path_str proj) "lua") "sys.lua").
Proof.
  apply (console_names_joined_paths proj). repeat constructor.
Defined.
